(** * License issuance (scripts/generate_license.py): a shallow embedding

    The script issues a license key: it generates a key, computes an
    expiration, inserts the record with one POST into the store and,
    when the store accepts it, mails the key.  The embedding follows
    the script function by function.  The Python library calls it makes
    ([random.choices], [datetime], [requests.post], [print], [int],
    [sys.exit]) are modelled next to it; everything the script reads
    from outside (environment, clock, random generator, network) is a
    field of [Env], everything it does to the outside is an [Event] of
    the trace. *)

From Stdlib Require Import ZArith List String Ascii Bool Lia.
Import ListNotations.

Local Open Scope string_scope.
Local Open Scope Z_scope.

(** ** Python values the script handles *)

(** Exceptions.  [except Exception] catches the first kind only:
    [SystemExit] derives from [BaseException] directly. *)
Inductive PyExc : Type :=
| Exception (cls : string) (msg : string)
| SystemExit (code : Z).

Definition is_Exception (e : PyExc) : bool :=
  match e with
  | Exception _ _ => true
  | SystemExit _ => false
  end.

(** What a Python function call yields: a value, or a raised exception. *)
Inductive Outcome (A : Type) : Type :=
| Return (a : A)
| Raise (e : PyExc).
Arguments Return {A} a.
Arguments Raise {A} e.

(** The values [create_license] could hand back to its caller.  The
    script only ever produces [PyNone]; the other constructors are the
    ones a caller would need to tell success from failure. *)
Inductive PyValue : Type :=
| PyNone
| PyStr (s : string)
| PyDict (d : list (string * string)).

(** Truthiness of an [Optional[str]], as tested by [if not X]. *)
Definition truthy (x : option string) : bool :=
  match x with
  | None => false
  | Some s => negb (String.eqb s "")
  end.

(** ** Strings *)

Module PyStr.

(** [sep.join(parts)] *)
Fixpoint join (sep : string) (parts : list string) : string :=
  match parts with
  | [] => ""
  | [p] => p
  | p :: rest => p ++ sep ++ join sep rest
  end.

Definition digit_char (d : Z) : ascii :=
  ascii_of_N (48 + Z.to_N d).

(** The [w] low decimal digits of [n], most significant first: what
    ["%0wd" % n] prints when [0 <= n < 10^w]. *)
Fixpoint zero_padded (w : nat) (n : Z) : list ascii :=
  match w with
  | O => []
  | S w' => zero_padded w' (n / 10) ++ [digit_char (n mod 10)]
  end.

Definition is_digit (c : ascii) : bool :=
  ((48 <=? N_of_ascii c) && (N_of_ascii c <=? 57))%N.

Definition digit_value (c : ascii) : Z :=
  Z.of_N (N_of_ascii c) - 48.

(** The number a run of ASCII digits denotes; [None] when the run is
    empty or holds anything else. *)
Definition parse_digits (cs : list ascii) : option Z :=
  match cs with
  | [] => None
  | _ =>
    if forallb is_digit cs
    then Some (fold_left (fun acc c => 10 * acc + digit_value c) cs 0)
    else None
  end.

(** Decimal digits of a non-negative number, by fuel on its size. *)
Fixpoint digits_fuel (fuel : nat) (n : Z) (acc : list ascii) : list ascii :=
  match fuel with
  | O => acc
  | S f =>
    let acc' := digit_char (n mod 10) :: acc in
    if n <? 10 then acc' else digits_fuel f (n / 10) acc'
  end.

(** [str(n)] for an integer. *)
Definition of_Z (n : Z) : string :=
  let body := string_of_list_ascii
                (digits_fuel (S (Z.to_nat (Z.log2 (Z.abs n)))) (Z.abs n) []) in
  if n <? 0 then "-" ++ body else body.

End PyStr.

(** [str(e)] *)
Definition exc_str (e : PyExc) : string :=
  match e with
  | Exception _ msg => msg
  | SystemExit code => PyStr.of_Z code
  end.

(** ** Regular expressions

    The fragment of [re] the key format needs: literals, character
    classes given by ranges, concatenation, alternation.  Matching is by
    derivatives, anchored at both ends ([^...$]). *)

Module Re.

Inductive regex : Type :=
| Void
| Eps
| Chr (c : ascii)
| Class (ranges : list (ascii * ascii))
| Seq (r1 r2 : regex)
| Alt (r1 r2 : regex).

Definition in_range (c : ascii) (rg : ascii * ascii) : bool :=
  ((N_of_ascii (fst rg) <=? N_of_ascii c) &&
   (N_of_ascii c <=? N_of_ascii (snd rg)))%N.

Definition in_class (ranges : list (ascii * ascii)) (c : ascii) : bool :=
  existsb (in_range c) ranges.

Fixpoint nullable (r : regex) : bool :=
  match r with
  | Void => false
  | Eps => true
  | Chr _ => false
  | Class _ => false
  | Seq r1 r2 => nullable r1 && nullable r2
  | Alt r1 r2 => nullable r1 || nullable r2
  end.

Fixpoint deriv (a : ascii) (r : regex) : regex :=
  match r with
  | Void => Void
  | Eps => Void
  | Chr c => if Ascii.eqb a c then Eps else Void
  | Class rs => if in_class rs a then Eps else Void
  | Seq r1 r2 =>
    if nullable r1
    then Alt (Seq (deriv a r1) r2) (deriv a r2)
    else Seq (deriv a r1) r2
  | Alt r1 r2 => Alt (deriv a r1) (deriv a r2)
  end.

Fixpoint fullmatch (r : regex) (s : string) : bool :=
  match s with
  | EmptyString => nullable r
  | String a s' => fullmatch (deriv a r) s'
  end.

(** The language of a regex, as a relation. *)
Inductive Matches : regex -> string -> Prop :=
| MEps : Matches Eps ""
| MChr c : Matches (Chr c) (String c "")
| MClass rs c : in_class rs c = true -> Matches (Class rs) (String c "")
| MSeq r1 r2 s1 s2 :
    Matches r1 s1 -> Matches r2 s2 -> Matches (Seq r1 r2) (s1 ++ s2)
| MAltL r1 r2 s : Matches r1 s -> Matches (Alt r1 r2) s
| MAltR r1 r2 s : Matches r2 s -> Matches (Alt r1 r2) s.

(** A literal string. *)
Fixpoint lit (s : string) : regex :=
  match s with
  | EmptyString => Eps
  | String c s' => Seq (Chr c) (lit s')
  end.

(** [r{n}] *)
Fixpoint times (n : nat) (r : regex) : regex :=
  match n with
  | O => Eps
  | S n' => Seq r (times n' r)
  end.

End Re.

(** [[A-Z0-9]] *)
Definition upper_or_digit : Re.regex :=
  Re.Class [("A"%char, "Z"%char); ("0"%char, "9"%char)].

(** [^PRO-[A-Z0-9]{4}-[A-Z0-9]{4}-[A-Z0-9]{4}$] *)
Definition license_key_pattern : Re.regex :=
  Re.Seq (Re.lit "PRO-")
    (Re.Seq (Re.times 4 upper_or_digit)
      (Re.Seq (Re.Chr "-")
        (Re.Seq (Re.times 4 upper_or_digit)
          (Re.Seq (Re.Chr "-") (Re.times 4 upper_or_digit))))).

(** ** [datetime]

    Naive datetimes and timedeltas as CPython's [datetime] module
    computes them (Lib/datetime.py): the proleptic Gregorian ordinal
    of a date, [datetime + timedelta], [isoformat] and the parser of
    the format [isoformat] writes. *)

Module Datetime.

Definition MAXYEAR : Z := 9999.
(** [_MAXORDINAL]: the ordinal of 9999-12-31. *)
Definition MAXORDINAL : Z := 3652059.

Definition DAYS_IN_MONTH : list Z :=
  [-1; 31; 28; 31; 30; 31; 30; 31; 31; 30; 31; 30; 31].
Definition DAYS_BEFORE_MONTH : list Z :=
  [-1; 0; 31; 59; 90; 120; 151; 181; 212; 243; 273; 304; 334].

(** [table[i]]; the module only indexes its month tables with 1..12. *)
Definition index (table : list Z) (i : Z) : Z :=
  nth (Z.to_nat i) table 0.

Definition is_leap (year : Z) : bool :=
  (year mod 4 =? 0) && (negb (year mod 100 =? 0) || (year mod 400 =? 0)).

Definition days_before_year (year : Z) : Z :=
  let y := year - 1 in
  y * 365 + y / 4 - y / 100 + y / 400.

Definition days_in_month (year month : Z) : Z :=
  if (month =? 2) && is_leap year then 29 else index DAYS_IN_MONTH month.

Definition days_before_month (year month : Z) : Z :=
  index DAYS_BEFORE_MONTH month +
  (if (2 <? month) && is_leap year then 1 else 0).

Definition ymd2ord (year month day : Z) : Z :=
  days_before_year year + days_before_month year month + day.

Definition DI400Y : Z := 146097.
Definition DI100Y : Z := 36524.
Definition DI4Y : Z := 1461.

(** The last step of [_ord2ymd]: month and day of the day at offset
    [n] from January 1, by an estimate of the month that is exact or
    one too large. *)
Definition month_day (n : Z) (leapyear : bool) : Z * Z :=
  let month := Z.shiftr (n + 50) 5 in
  let preceding :=
    index DAYS_BEFORE_MONTH month +
    (if (2 <? month) && leapyear then 1 else 0) in
  let '(month, preceding) :=
    if n <? preceding
    then (month - 1,
          preceding - (index DAYS_IN_MONTH (month - 1) +
                       (if (month - 1 =? 2) && leapyear then 1 else 0)))
    else (month, preceding) in
  let n := n - preceding in
  (month, n + 1).

Definition ord2ymd (n : Z) : Z * Z * Z :=
  let n := n - 1 in
  let n400 := n / DI400Y in
  let n := n mod DI400Y in
  let year := n400 * 400 + 1 in
  let n100 := n / DI100Y in
  let n := n mod DI100Y in
  let n4 := n / DI4Y in
  let n := n mod DI4Y in
  let n1 := n / 365 in
  let n := n mod 365 in
  let year := year + (n100 * 100 + n4 * 4 + n1) in
  if (n1 =? 4) || (n100 =? 4) then (year - 1, 12, 31)
  else
    let leapyear := (n1 =? 3) && (negb (n4 =? 24) || (n100 =? 3)) in
    let '(month, day) := month_day n leapyear in
    (year, month, day).

Record datetime : Type := mk_datetime {
  year : Z; month : Z; day : Z;
  hour : Z; minute : Z; second : Z; microsecond : Z
}.

(** The checks of the [datetime] constructor ([_check_date_fields],
    [_check_time_fields]). *)
Definition check_fields (dt : datetime) : bool :=
  (1 <=? year dt) && (year dt <=? MAXYEAR) &&
  (1 <=? month dt) && (month dt <=? 12) &&
  (1 <=? day dt) && (day dt <=? days_in_month (year dt) (month dt)) &&
  (0 <=? hour dt) && (hour dt <=? 23) &&
  (0 <=? minute dt) && (minute dt <=? 59) &&
  (0 <=? second dt) && (second dt <=? 59) &&
  (0 <=? microsecond dt) && (microsecond dt <=? 999999).

Definition toordinal (dt : datetime) : Z :=
  ymd2ord (year dt) (month dt) (day dt).

Record timedelta : Type := mk_timedelta {
  days : Z; seconds : Z; microseconds : Z
}.

(** [timedelta(days, seconds, microseconds)] on integers: carries are
    normalised, and more than 999999999 days either way is refused. *)
Definition timedelta_new (d s us : Z) : Outcome timedelta :=
  let s := s + us / 1000000 in
  let us := us mod 1000000 in
  let d := d + s / 86400 in
  let s := s mod 86400 in
  if 999999999 <? Z.abs d
  then Raise (Exception "OverflowError"
                ("days=" ++ PyStr.of_Z d ++ "; must have magnitude <= 999999999"))
  else Return (mk_timedelta d s us).

(** [timedelta.__add__] *)
Definition timedelta_add (a b : timedelta) : Outcome timedelta :=
  timedelta_new (days a + days b) (seconds a + seconds b)
                (microseconds a + microseconds b).

(** [datetime.__add__(self, other)] for a timedelta [other]. *)
Definition add (self : datetime) (other : timedelta) : Outcome datetime :=
  match timedelta_new (toordinal self)
          (hour self * 3600 + minute self * 60 + second self)
          (microsecond self) with
  | Raise e => Raise e
  | Return delta =>
    match timedelta_add delta other with
    | Raise e => Raise e
    | Return delta =>
      let hour := seconds delta / 3600 in
      let rem := seconds delta mod 3600 in
      let minute := rem / 60 in
      let second := rem mod 60 in
      if (0 <? days delta) && (days delta <=? MAXORDINAL)
      then
        let '(y, m, d) := ord2ymd (days delta) in
        Return (mk_datetime y m d hour minute second (microseconds delta))
      else Raise (Exception "OverflowError" "date value out of range")
    end
  end.

(** [self.isoformat()] of a naive datetime: no offset is written, and
    the fraction only when the microsecond is not zero. *)
Definition isoformat (dt : datetime) : string :=
  string_of_list_ascii
    (PyStr.zero_padded 4 (year dt) ++ ["-"%char] ++
     PyStr.zero_padded 2 (month dt) ++ ["-"%char] ++
     PyStr.zero_padded 2 (day dt) ++ ["T"%char] ++
     PyStr.zero_padded 2 (hour dt) ++ [":"%char] ++
     PyStr.zero_padded 2 (minute dt) ++ [":"%char] ++
     PyStr.zero_padded 2 (second dt) ++
     (if microsecond dt =? 0 then []
      else ["."%char] ++ PyStr.zero_padded 6 (microsecond dt)))%list.

(** [s[i:j]] *)
Definition slice (i j : nat) (cs : list ascii) : list ascii :=
  firstn (j - i) (skipn i cs).

Definition char_at (i : nat) (c : ascii) (cs : list ascii) : bool :=
  match nth_error cs i with
  | Some c' => Ascii.eqb c' c
  | None => false
  end.

(** The fraction after the seconds: nothing, or a dot and six digits. *)
Definition parse_fraction (cs : list ascii) : option Z :=
  match cs with
  | [] => Some 0
  | c :: ds =>
    if Ascii.eqb c "." && Nat.eqb (List.length ds) 6
    then PyStr.parse_digits ds
    else None
  end.

(** [datetime.fromisoformat] on [YYYY-MM-DDTHH:MM:SS[.ffffff]], the
    format [isoformat] writes for a naive datetime; [None] stands for
    its [ValueError]. *)
Definition fromisoformat (s : string) : option datetime :=
  let cs := list_ascii_of_string s in
  if char_at 4 "-" cs && char_at 7 "-" cs && char_at 10 "T" cs &&
     char_at 13 ":" cs && char_at 16 ":" cs
  then
    match PyStr.parse_digits (slice 0 4 cs),
          PyStr.parse_digits (slice 5 7 cs),
          PyStr.parse_digits (slice 8 10 cs),
          PyStr.parse_digits (slice 11 13 cs),
          PyStr.parse_digits (slice 14 16 cs),
          PyStr.parse_digits (slice 17 19 cs),
          parse_fraction (skipn 19 cs) with
    | Some y, Some m, Some d, Some hh, Some mm, Some ss, Some us =>
      let dt := mk_datetime y m d hh mm ss us in
      if check_fields dt then Some dt else None
    | _, _, _, _, _, _, _ => None
    end
  else None.

(** Microseconds elapsed since the start of day 0 of the ordinal
    count: the instant a naive datetime names on its own time line. *)
Definition instant (dt : datetime) : Z :=
  ((toordinal dt * 86400 +
    (hour dt * 3600 + minute dt * 60 + second dt)) * 1000000)
  + microsecond dt.

Definition MICROSECONDS_PER_DAY : Z := 86400 * 1000000.

End Datetime.

(** ** The outside world *)

(** [requests.post(url, json=..., headers=...)]; the dicts keep their
    insertion order. *)
Record Request : Type := mk_request {
  url : string;
  json : list (string * string);
  headers : list (string * string)
}.

Record Response : Type := mk_response {
  status_code : Z;
  text : string
}.

(** What an invocation does that can be observed: lines printed to
    standard output and requests sent.  Entering [send_email] is
    recorded too, so that "is invoked" can be read off the trace. *)
Inductive Event : Type :=
| Printed (line : string)
| Posted (rq : Request)
| Entered_send_email (to_email license_key : string).

(** What an invocation reads.  The two keys are the module globals set
    from [os.environ.get] at import; [clock] is the reading of
    [datetime.datetime.utcnow()]; [random53 i] is the [i]-th output of
    [random.random()] scaled by 2^53 (CPython returns [k / 2^53] with
    [0 <= k < 2^53]); [network] answers a request or raises. *)
Record Env : Type := mk_env {
  SUPABASE_SERVICE_KEY : option string;
  RESEND_API_KEY : option string;
  clock : Datetime.datetime;
  random53 : nat -> Z;
  network : Request -> Outcome Response
}.

Record State : Type := mk_state {
  trace : list Event;
  drawn : nat
}.

Definition initial : State := mk_state [] 0.

(** ** The monad of script code: reads [Env], threads [State], may raise *)

Definition M (A : Type) : Type := Env -> State -> Outcome A * State.

Definition ret {A} (a : A) : M A := fun _ st => (Return a, st).

Definition bind {A B} (c : M A) (k : A -> M B) : M B :=
  fun env st =>
    match c env st with
    | (Return a, st') => k a env st'
    | (Raise e, st') => (Raise e, st')
    end.

Notation "x <- c ;; k" := (bind c (fun x => k))
  (at level 61, c at next level, right associativity).
Notation "c ;;; k" := (bind c (fun _ => k))
  (at level 61, right associativity).

(** A pure library call that may raise. *)
Definition lift {A} (o : Outcome A) : M A := fun _ st => (o, st).

Definition raise {A} (e : PyExc) : M A := lift (Raise e).

Definition ask {A} (f : Env -> A) : M A := fun env st => (Return (f env), st).

Definition emit (ev : Event) : M unit :=
  fun _ st => (Return tt, mk_state (trace st ++ [ev]) (drawn st)).

(** [print(line)] *)
Definition print (line : string) : M unit := emit (Printed line).

(** [try: body / except Exception as e: handler(e)] *)
Definition try_except {A} (body : M A) (handler : PyExc -> M A) : M A :=
  fun env st =>
    match body env st with
    | (Return a, st') => (Return a, st')
    | (Raise e, st') =>
      if is_Exception e then handler e env st' else (Raise e, st')
    end.

(** [requests.post]: the request goes out, then the answer comes back
    or the call raises. *)
Definition requests_post (u : string) (body hdrs : list (string * string))
  : M Response :=
  let rq := mk_request u body hdrs in
  emit (Posted rq) ;;;
  net <- ask network ;;
  lift (net rq).

(** [datetime.datetime.utcnow()] *)
Definition utcnow : M Datetime.datetime := ask clock.

(** [sys.exit(code)] *)
Definition sys_exit {A} (code : Z) : M A := raise (SystemExit code).

(** [for _ in range(n): acc = body(acc)] *)
Fixpoint for_range {S} (n : nat) (body : S -> M S) (acc : S) : M S :=
  match n with
  | O => ret acc
  | S n' => acc' <- body acc ;; for_range n' body acc'
  end.

(** [s[i]] on a string, with Python's negative indexes. *)
Definition getitem (s : string) (i : Z) : Outcome ascii :=
  let len := Z.of_nat (String.length s) in
  let j := if i <? 0 then i + len else i in
  if (j <? 0) || (len <=? j)
  then Raise (Exception "IndexError" "string index out of range")
  else
    match String.get (Z.to_nat j) s with
    | Some c => Return c
    | None => Raise (Exception "IndexError" "string index out of range")
    end.

(** [str(x)] inside an f-string, for an [Optional[str]]. *)
Definition fmt (x : option string) : string :=
  match x with
  | Some s => s
  | None => "None"
  end.

(** ** [random] *)

Module PyRandom.

(** Round the positive integer [m] to 53 significant bits, ties to
    even: the significand rounding of a double. *)
Definition round53 (m : Z) : Z :=
  if m <? 2 ^ 53 then m
  else
    let e := Z.log2 m - 52 in
    let q := Z.shiftr m e in
    let r := m - Z.shiftl q e in
    let half := Z.shiftl 1 (e - 1) in
    let q' := if (half <? r) || ((r =? half) && Z.odd q) then q + 1 else q in
    Z.shiftl q' e.

(** [floor(x * n)] in double arithmetic, for [x = k / 2^53] and the
    double [n] of a length: the product [k * n / 2^53] is rounded to
    a double before [floor] sees it. *)
Definition floor_mul (k n : Z) : Z :=
  Z.shiftr (round53 (k * n)) 53.

(** [random.random()]: the next output of the generator. *)
Definition random : M Z :=
  fun env st =>
    (Return (random53 env (drawn st)), mk_state (trace st) (S (drawn st))).

(** [random.choices(population, k=k)]:
    [[population[floor(random() * n)] for i in _repeat(None, k)]]
    with [n = len(population) + 0.0]. *)
Fixpoint choices (population : string) (k : nat) : M (list ascii) :=
  match k with
  | O => ret []
  | S k' =>
    x <- random ;;
    c <- lift (getitem population
                 (floor_mul x (Z.of_nat (String.length population)))) ;;
    rest <- choices population k' ;;
    ret (c :: rest)
  end.

End PyRandom.

(** [string.ascii_uppercase], [string.digits] *)
Definition ascii_uppercase : string := "ABCDEFGHIJKLMNOPQRSTUVWXYZ".
Definition digits : string := "0123456789".

(** ** scripts/generate_license.py *)

Definition SUPABASE_URL : string := "https://ejqzexdkoqbvgmjtbbwd.supabase.co".
Definition FROM_EMAIL : string := "licenses@creenly.com".

Definition generate_license_key : M string :=
  let chars := ascii_uppercase ++ digits in
  parts <- for_range 3
             (fun parts =>
                cs <- PyRandom.choices chars 4 ;;
                ret (parts ++ [string_of_list_ascii cs])%list)
             [] ;;
  ret ("PRO-" ++ PyStr.join "-" parts).

(** The expression of line 35,
    [(datetime.datetime.utcnow() + timedelta(days=days_valid)).isoformat()],
    once the clock has been read. *)
Definition expiry (now : Datetime.datetime) (days_valid : Z)
  : Outcome Datetime.datetime :=
  match Datetime.timedelta_new days_valid 0 0 with
  | Raise e => Raise e
  | Return td => Datetime.add now td
  end.

Definition nl : string := String "010"%char "".
Definition dquote : string := String "034"%char "".

(** The f-string of lines 77-83: the message body around the key. *)
Definition html_body (license_key : string) : string :=
  nl ++
  "    <h1>Welcome to Creenly!</h1>" ++ nl ++
  "    <p>Thank you for your purchase.</p>" ++ nl ++
  "    <p><strong>Your License Key:</strong></p>" ++ nl ++
  "    <h2 style=" ++ dquote ++
  "font-family: monospace; background: #eee; padding: 10px;" ++ dquote ++
  ">" ++ license_key ++ "</h2>" ++ nl ++
  "    <p>Activate this key in the Settings panel of the Church Projector app.</p>"
  ++ nl ++ "    ".

Definition send_email (to_email license_key : string) : M PyValue :=
  emit (Entered_send_email to_email license_key) ;;;
  api_key <- ask RESEND_API_KEY ;;
  if negb (truthy api_key) then
    print "WARNING: RESEND_API_KEY not found. Skipping email." ;;;
    print ("Please manually send key " ++ license_key ++ " to " ++ to_email) ;;;
    ret PyNone
  else
    print "Sending email via Resend..." ;;;
    let url := "https://api.resend.com/emails" in
    let headers :=
      [("Authorization", "Bearer " ++ fmt api_key);
       ("Content-Type", "application/json")] in
    let html_content := html_body license_key in
    let data :=
      [("from", FROM_EMAIL);
       ("to", to_email);
       ("subject", "Your Creenly License Key");
       ("html", html_content)] in
    try_except
      (resp <- requests_post url data headers ;;
       if status_code resp =? 200
       then print "Email sent successfully!"
       else print ("Email failed: " ++ text resp))
      (fun e => print ("Email error: " ++ exc_str e)) ;;;
    ret PyNone.

Definition create_license (email : string) (days_valid : Z) : M PyValue :=
  service_key <- ask SUPABASE_SERVICE_KEY ;;
  if negb (truthy service_key) then
    print "ERROR: PROJECTOR_SUPABASE_SERVICE_KEY environment variable is not set." ;;;
    print "Please grab the 'service_role' secret from Supabase Dashboard > Settings > API." ;;;
    ret PyNone
  else
    key <- generate_license_key ;;
    now <- utcnow ;;
    expires <- lift (expiry now days_valid) ;;
    let expires_at := Datetime.isoformat expires in
    let payload :=
      [("license_key", key);
       ("email", email);
       ("status", "active");
       ("current_period_end", expires_at)] in
    let headers :=
      [("apikey", fmt service_key);
       ("Authorization", "Bearer " ++ fmt service_key);
       ("Content-Type", "application/json");
       ("Prefer", "return=minimal")] in
    print ("Creating license for " ++ email ++ "...") ;;;
    response <- requests_post (SUPABASE_URL ++ "/rest/v1/licenses")
                  payload headers ;;
    if (status_code response =? 200) || (status_code response =? 201) then
      print "SUCCESS: License Created!" ;;;
      print ("Key: " ++ key) ;;;
      print ("Expires: " ++ expires_at) ;;;
      send_email email key ;;;
      ret PyNone
    else
      print ("FAILED to create license: " ++ text response) ;;;
      ret PyNone.

(** ** The command line *)

(** Strings of the model are the UTF-8 text of the Python strings.
    [int(s)] is modelled as CPython 3.11 computes it (PyLong_FromString)
    on ASCII text.  What it does beyond ASCII, and how many digits it
    accepts, it takes from the interpreter and not from its argument,
    so these are given with the interpreter. *)
Record Interpreter : Type := mk_interpreter {
  (** [sys.get_int_max_str_digits()]: 4300 unless configured otherwise,
      0 for no limit (also for a CPython without the limit). *)
  int_max_str_digits : Z;
  (** [int(s)] on text that holds a character outside ASCII, where it
      reads the white space and the decimal digits of the interpreter's
      Unicode tables. *)
  int_unicode : string -> Outcome Z
}.

Definition is_ascii (s : string) : bool :=
  forallb (fun c => (N_of_ascii c <? 128)%N) (list_ascii_of_string s).

(** [Py_ISSPACE]: the white space [int] skips around the number. *)
Definition is_space (c : ascii) : bool :=
  let n := N_of_ascii c in
  ((n =? 32) || ((9 <=? n) && (n <=? 13)))%N.

Fixpoint skip_spaces (cs : list ascii) : list ascii :=
  match cs with
  | c :: cs' => if is_space c then skip_spaces cs' else cs
  | [] => []
  end.

(** The run of digits and underscores at the head of [cs]: its value,
    its number of digits and what follows it; [None] when two
    underscores meet or the run ends in one. *)
Fixpoint scan_digits (prev_underscore : bool) (acc count : Z)
    (cs : list ascii) : option (Z * Z * list ascii) :=
  match cs with
  | c :: cs' =>
    if PyStr.is_digit c
    then scan_digits false (10 * acc + PyStr.digit_value c) (count + 1) cs'
    else if Ascii.eqb c "_"
    then (if prev_underscore then None else scan_digits true acc count cs')
    else if prev_underscore then None else Some (acc, count, cs)
  | [] => if prev_underscore then None else Some (acc, count, [])
  end.

Definition hex_digit (n : N) : ascii :=
  (if n <? 10 then ascii_of_N (48 + n) else ascii_of_N (87 + n))%N.

(** One character inside [repr(s)], between quotes [quote]. *)
Definition repr_char (quote c : ascii) : list ascii :=
  let n := N_of_ascii c in
  if Ascii.eqb c quote || Ascii.eqb c "\"
  then ["\"%char; c]
  else if (n =? 9)%N then ["\"%char; "t"%char]
  else if (n =? 10)%N then ["\"%char; "n"%char]
  else if (n =? 13)%N then ["\"%char; "r"%char]
  else if ((n <? 32) || (n =? 127))%N
  then ["\"%char; "x"%char; hex_digit (n / 16); hex_digit (n mod 16)]
  else [c].

(** [repr(s)] of ASCII text: double quotes when [s] holds a single
    quote and no double quote, single quotes otherwise. *)
Definition py_repr (s : string) : list ascii :=
  let cs := list_ascii_of_string s in
  let quote :=
    if existsb (Ascii.eqb "'") cs && negb (existsb (Ascii.eqb "034") cs)
    then "034"%char else "'"%char in
  (quote :: flat_map (repr_char quote) cs ++ [quote])%list.

(** The [ValueError] of a refused literal; the format is [%.200R]. *)
Definition invalid_literal (s : string) : PyExc :=
  Exception "ValueError"
    ("invalid literal for int() with base 10: " ++
     string_of_list_ascii (firstn 200 (py_repr s))).

Definition too_many_digits (limit count : Z) : PyExc :=
  Exception "ValueError"
    ("Exceeds the limit (" ++ PyStr.of_Z limit ++
     " digits) for integer string conversion: value has " ++
     PyStr.of_Z count ++
     " digits; use sys.set_int_max_str_digits() to increase the limit").

(** [int(s)] for ASCII text: white space, a sign, digits with single
    underscores between them, white space.  The digit limit is checked
    once the digits are scanned, before what follows them is looked
    at, and only above 640 digits. *)
Definition int_ascii (limit : Z) (s : string) : Outcome Z :=
  let cs := skip_spaces (list_ascii_of_string s) in
  let '(negative, body) :=
    match cs with
    | c :: cs' =>
      if Ascii.eqb c "-" then (true, cs')
      else if Ascii.eqb c "+" then (false, cs')
      else (false, cs)
    | [] => (false, [])
    end in
  match body with
  | c :: _ =>
    if Ascii.eqb c "_" then Raise (invalid_literal s)
    else
      match scan_digits false 0 0 body with
      | None => Raise (invalid_literal s)
      | Some (n, count, rest) =>
        if (640 <? count) && (0 <? limit) && (limit <? count)
        then Raise (too_many_digits limit count)
        else if count =? 0 then Raise (invalid_literal s)
        else
          match skip_spaces rest with
          | [] => Return (if negative then - n else n)
          | _ :: _ => Raise (invalid_literal s)
          end
      end
  | [] => Raise (invalid_literal s)
  end.

(** [int(s)] *)
Definition py_int (py : Interpreter) (s : string) : Outcome Z :=
  if is_ascii s then int_ascii (int_max_str_digits py) s
  else int_unicode py s.

(** The [if __name__ == "__main__":] block, on [sys.argv]. *)
Definition main (py : Interpreter) (argv : list string) : M PyValue :=
  if (List.length argv <? 2)%nat then
    print "Usage: python generate_license.py <customer_email> [days_valid]" ;;;
    sys_exit 1
  else
    let email := nth 1 argv "" in
    days <- (if (2 <? List.length argv)%nat
             then lift (py_int py (nth 2 argv ""))
             else ret 365) ;;
    create_license email days.

(** The exit status of the interpreter: 0 when the script runs to its
    end, the code of [sys.exit], 1 after an uncaught exception. *)
Definition exit_status {A} (o : Outcome A) : Z :=
  match o with
  | Return _ => 0
  | Raise (SystemExit code) => code
  | Raise (Exception _ _) => 1
  end.

(** Running a piece of script code from the initial state. *)
Definition run {A} (c : M A) (env : Env) : Outcome A * list Event :=
  let '(o, st) := c env initial in (o, trace st).

(** ** The paths through the script

    The two requests the script builds, and one constructor for each
    way [send_email] and [create_license] can run: the outcome, and the
    events added to the trace. *)

Definition STORE_ENDPOINT : string := SUPABASE_URL ++ "/rest/v1/licenses".
Definition EMAIL_ENDPOINT : string := "https://api.resend.com/emails".

Definition store_request (service_key : option string)
    (key email expires_at : string) : Request :=
  mk_request STORE_ENDPOINT
    [("license_key", key); ("email", email); ("status", "active");
     ("current_period_end", expires_at)]
    [("apikey", fmt service_key);
     ("Authorization", "Bearer " ++ fmt service_key);
     ("Content-Type", "application/json");
     ("Prefer", "return=minimal")].

Definition mail_request (api_key : option string)
    (to_email license_key : string) : Request :=
  mk_request EMAIL_ENDPOINT
    [("from", FROM_EMAIL); ("to", to_email);
     ("subject", "Your Creenly License Key");
     ("html", html_body license_key)]
    [("Authorization", "Bearer " ++ fmt api_key);
     ("Content-Type", "application/json")].

(** HTTP 200 or 201: the test of line 54. *)
Definition accepted (resp : Response) : bool :=
  (status_code resp =? 200) || (status_code resp =? 201).

(** [d[k]] on a dict kept as a list of items. *)
Fixpoint lookup (k : string) (d : list (string * string)) : option string :=
  match d with
  | [] => None
  | (k', v) :: d' => if String.eqb k k' then Some v else lookup k d'
  end.

(** The state after more events. *)
Definition after (st : State) (evs : list Event) : State :=
  mk_state (trace st ++ evs) (drawn st).

(** The [send_email] invocations a trace records, in order. *)
Fixpoint send_email_calls (tr : list Event) : list (string * string) :=
  match tr with
  | [] => []
  | Entered_send_email to k :: tr' => (to, k) :: send_email_calls tr'
  | _ :: tr' => send_email_calls tr'
  end.

(** The requests a trace records, in order. *)
Fixpoint requests_of (tr : list Event) : list Request :=
  match tr with
  | [] => []
  | Posted rq :: tr' => rq :: requests_of tr'
  | _ :: tr' => requests_of tr'
  end.

(** The lines a trace prints, in order. *)
Fixpoint printed (tr : list Event) : list string :=
  match tr with
  | [] => []
  | Printed line :: tr' => line :: printed tr'
  | _ :: tr' => printed tr'
  end.

Section Paths.

Variable env : Env.

Inductive mail_path (to_email license_key : string)
  : Outcome PyValue -> list Event -> Prop :=
| mail_skipped :
    truthy (RESEND_API_KEY env) = false ->
    mail_path to_email license_key (Return PyNone)
      [Entered_send_email to_email license_key;
       Printed "WARNING: RESEND_API_KEY not found. Skipping email.";
       Printed ("Please manually send key " ++ license_key ++ " to " ++ to_email)]
| mail_answered resp :
    truthy (RESEND_API_KEY env) = true ->
    network env (mail_request (RESEND_API_KEY env) to_email license_key)
      = Return resp ->
    mail_path to_email license_key (Return PyNone)
      [Entered_send_email to_email license_key;
       Printed "Sending email via Resend...";
       Posted (mail_request (RESEND_API_KEY env) to_email license_key);
       Printed (if status_code resp =? 200
                then "Email sent successfully!"
                else "Email failed: " ++ text resp)]
| mail_caught e :
    truthy (RESEND_API_KEY env) = true ->
    network env (mail_request (RESEND_API_KEY env) to_email license_key)
      = Raise e ->
    is_Exception e = true ->
    mail_path to_email license_key (Return PyNone)
      [Entered_send_email to_email license_key;
       Printed "Sending email via Resend...";
       Posted (mail_request (RESEND_API_KEY env) to_email license_key);
       Printed ("Email error: " ++ exc_str e)]
| mail_uncaught e :
    truthy (RESEND_API_KEY env) = true ->
    network env (mail_request (RESEND_API_KEY env) to_email license_key)
      = Raise e ->
    is_Exception e = false ->
    mail_path to_email license_key (Raise e)
      [Entered_send_email to_email license_key;
       Printed "Sending email via Resend...";
       Posted (mail_request (RESEND_API_KEY env) to_email license_key)].

(** [create_license email days_valid] started in state [st]. *)
Inductive issue_path (email : string) (days_valid : Z) (st : State)
  : Outcome PyValue -> list Event -> Prop :=
| issue_unconfigured :
    truthy (SUPABASE_SERVICE_KEY env) = false ->
    issue_path email days_valid st (Return PyNone)
      [Printed "ERROR: PROJECTOR_SUPABASE_SERVICE_KEY environment variable is not set.";
       Printed "Please grab the 'service_role' secret from Supabase Dashboard > Settings > API."]
| issue_no_key e st1 :
    truthy (SUPABASE_SERVICE_KEY env) = true ->
    generate_license_key env st = (Raise e, st1) ->
    issue_path email days_valid st (Raise e) []
| issue_no_expiry key st1 e :
    truthy (SUPABASE_SERVICE_KEY env) = true ->
    generate_license_key env st = (Return key, st1) ->
    expiry (clock env) days_valid = Raise e ->
    issue_path email days_valid st (Raise e) []
| issue_store_raised key st1 expires e :
    truthy (SUPABASE_SERVICE_KEY env) = true ->
    generate_license_key env st = (Return key, st1) ->
    expiry (clock env) days_valid = Return expires ->
    network env (store_request (SUPABASE_SERVICE_KEY env) key email
                   (Datetime.isoformat expires)) = Raise e ->
    issue_path email days_valid st (Raise e)
      [Printed ("Creating license for " ++ email ++ "...");
       Posted (store_request (SUPABASE_SERVICE_KEY env) key email
                 (Datetime.isoformat expires))]
| issue_rejected key st1 expires resp :
    truthy (SUPABASE_SERVICE_KEY env) = true ->
    generate_license_key env st = (Return key, st1) ->
    expiry (clock env) days_valid = Return expires ->
    network env (store_request (SUPABASE_SERVICE_KEY env) key email
                   (Datetime.isoformat expires)) = Return resp ->
    accepted resp = false ->
    issue_path email days_valid st (Return PyNone)
      [Printed ("Creating license for " ++ email ++ "...");
       Posted (store_request (SUPABASE_SERVICE_KEY env) key email
                 (Datetime.isoformat expires));
       Printed ("FAILED to create license: " ++ text resp)]
| issue_accepted key st1 expires resp o mail :
    truthy (SUPABASE_SERVICE_KEY env) = true ->
    generate_license_key env st = (Return key, st1) ->
    expiry (clock env) days_valid = Return expires ->
    network env (store_request (SUPABASE_SERVICE_KEY env) key email
                   (Datetime.isoformat expires)) = Return resp ->
    accepted resp = true ->
    mail_path email key o mail ->
    issue_path email days_valid st o
      ([Printed ("Creating license for " ++ email ++ "...");
        Posted (store_request (SUPABASE_SERVICE_KEY env) key email
                  (Datetime.isoformat expires));
        Printed "SUCCESS: License Created!";
        Printed ("Key: " ++ key);
        Printed ("Expires: " ++ Datetime.isoformat expires)] ++ mail).

End Paths.

(** Well-formed generator: every output of [random.random()] lies in
    [[0, 1)], that is, [0 <= k < 2^53]. *)
Definition random_ok (env : Env) : Prop :=
  forall i : nat, 0 <= random53 env i < 2 ^ 53.

(** The population the key generator draws from. *)
Definition key_alphabet : string := (ascii_uppercase ++ digits)%string.

(** ** Sample inputs, for running the script on *)

Module Sample.

(** 2024-02-29T13:05:09.000045 *)
Definition clock : Datetime.datetime :=
  Datetime.mk_datetime 2024 2 29 13 5 9 45.

Definition random53 (i : nat) : Z :=
  (Z.of_nat i * 777777777777777 + 12345) mod 2 ^ 53.

(** A network whose store and mail provider answer as given. *)
Definition network (store mail : Outcome Response) (rq : Request)
  : Outcome Response :=
  if String.eqb (url rq) EMAIL_ENDPOINT then mail else store.

Definition env (service_key api_key : option string)
    (store mail : Outcome Response) : Env :=
  mk_env service_key api_key clock random53 (network store mail).

Definition created : Outcome Response := Return (mk_response 201 "").
Definition conflict : Outcome Response :=
  Return (mk_response 409 "duplicate key value violates unique constraint").
Definition sent : Outcome Response := Return (mk_response 200 "{}").
Definition refused : Outcome Response :=
  Return (mk_response 403 "domain is not verified").
Definition unreachable : Outcome Response :=
  Raise (Exception "ConnectionError" "Max retries exceeded").

Definition argv : list string :=
  ["generate_license.py"; "buyer@example.com"; "30"].

Definition service_key : option string := Some "service-role-secret".
Definition api_key : option string := Some "re_key".
Definition email : string := "buyer@example.com".

(** The key the script generates from [random53], and the expiry it
    computes 30 days after [clock]. *)
Definition key : string := "PRO-ADGJ-MPSV-Y158".
Definition expires_at : string := "2024-03-30T13:05:09.000045".

Definition store_rq : Request :=
  store_request service_key key email expires_at.
Definition mail_rq : Request :=
  mail_request api_key email key.

End Sample.

(** What the month step must deliver, as a test. *)
Definition month_day_ok (leapyear : bool) (n : Z) : bool :=
  let '(m, d) := Datetime.month_day n leapyear in
  (1 <=? m) && (m <=? 12) && (1 <=? d) &&
  (d <=? (if (m =? 2) && leapyear then 29
          else Datetime.index Datetime.DAYS_IN_MONTH m)) &&
  (Datetime.index Datetime.DAYS_BEFORE_MONTH m +
   (if (2 <? m) && leapyear then 1 else 0) + d =? n + 1).

(** The message body before and after the key. *)
Definition html_before_key : string :=
  nl ++
  "    <h1>Welcome to Creenly!</h1>" ++ nl ++
  "    <p>Thank you for your purchase.</p>" ++ nl ++
  "    <p><strong>Your License Key:</strong></p>" ++ nl ++
  "    <h2 style=" ++ dquote ++
  "font-family: monospace; background: #eee; padding: 10px;" ++ dquote ++
  ">".

Definition html_after_key : string :=
  "</h2>" ++ nl ++
  "    <p>Activate this key in the Settings panel of the Church Projector app.</p>"
  ++ nl ++ "    ".

(** The interpreter of the sample runs: the default digit limit.  The
    sample arguments are ASCII, so its answer beyond ASCII is never
    asked for. *)
Definition sample_interpreter : Interpreter :=
  mk_interpreter 4300 (fun s => Raise (invalid_literal s)).

(** * Properties *)

(** ** The monad and the trace *)

Lemma after_nil (st : State) : after st [] = st.
Proof.
  destruct st as [tr n]; unfold after; simpl.
  now rewrite app_nil_r.
Qed.

Lemma after_after (st : State) (xs ys : list Event) :
  after (after st xs) ys = after st (xs ++ ys).
Proof.
  unfold after; simpl. now rewrite app_assoc.
Qed.

Lemma emit_after (ev : Event) (env : Env) (st : State) :
  emit ev env st = (Return tt, after st [ev]).
Proof. reflexivity. Qed.

(** Unfold the monad of a run and normalise the trace it leaves. *)
Ltac run_monad :=
  cbv beta delta [bind ask print emit requests_post try_except lift ret
                  raise utcnow sys_exit] iota;
  cbn [fst snd trace drawn].

Ltac close_trace :=
  unfold after; cbn [trace drawn]; rewrite <- ?app_assoc; reflexivity.

(** [send_email] runs along exactly one of its paths. *)
Lemma send_email_path (env : Env) (to_email license_key : string) (st : State) :
  exists o evs,
    send_email to_email license_key env st = (o, after st evs) /\
    mail_path env to_email license_key o evs.
Proof.
  unfold send_email. run_monad.
  destruct (truthy (RESEND_API_KEY env)) eqn:Hk; cbn [negb]; run_monad.
  - fold EMAIL_ENDPOINT.
    change (mk_request EMAIL_ENDPOINT _ _)
      with (mail_request (RESEND_API_KEY env) to_email license_key).
    destruct (network env (mail_request (RESEND_API_KEY env) to_email license_key))
      as [resp | e] eqn:Hnet.
    + exists (Return PyNone). eexists. split.
      2: { eapply mail_answered; eassumption. }
      destruct (status_code resp =? 200); close_trace.
    + destruct (is_Exception e) eqn:He.
      * exists (Return PyNone). eexists. split.
        2: { eapply mail_caught; eassumption. }
        close_trace.
      * exists (Raise e). eexists. split.
        2: { eapply mail_uncaught; eassumption. }
        close_trace.
  - exists (Return PyNone). eexists. split.
    2: { now apply mail_skipped. }
    close_trace.
Qed.

(** ** Regular expressions: the matcher decides the language *)

Lemma append_empty_inv (s1 s2 : string) :
  (s1 ++ s2)%string = "" -> s1 = "" /\ s2 = "".
Proof.
  destruct s1; simpl; intros H; [auto | discriminate].
Qed.

Lemma nullable_complete (r : Re.regex) (s : string) :
  Re.Matches r s -> s = "" -> Re.nullable r = true.
Proof.
  induction 1; intros Hs; simpl; try discriminate; auto.
  - apply append_empty_inv in Hs as [-> ->].
    rewrite IHMatches1, IHMatches2; auto.
  - rewrite IHMatches; auto.
  - rewrite IHMatches; auto using orb_true_r.
Qed.

Lemma deriv_complete (r : Re.regex) (w : string) :
  Re.Matches r w ->
  forall x t, w = String x t -> Re.Matches (Re.deriv x r) t.
Proof.
  induction 1 as [| c | rs c Hc | r1 r2 s1 s2 H1 IH1 H2 IH2
                  | r1 r2 s H IH | r1 r2 s H IH];
    intros x t Hw; simpl; try discriminate.
  - injection Hw as -> <-. rewrite Ascii.eqb_refl. constructor.
  - injection Hw as -> <-. rewrite Hc. constructor.
  - destruct s1 as [| b s1'].
    + simpl in Hw. subst s2.
      rewrite (nullable_complete _ _ H1 eq_refl).
      apply Re.MAltR. now apply IH2.
    + simpl in Hw. injection Hw as -> <-.
      assert (Hseq : Re.Matches (Re.Seq (Re.deriv x r1) r2) (s1' ++ s2)).
      { constructor; [now apply IH1 | assumption]. }
      destruct (Re.nullable r1); [now apply Re.MAltL | assumption].
  - apply Re.MAltL. now apply IH.
  - apply Re.MAltR. now apply IH.
Qed.

Lemma fullmatch_complete (s : string) :
  forall r, Re.Matches r s -> Re.fullmatch r s = true.
Proof.
  induction s as [| a s IH]; intros r H; simpl.
  - now apply (nullable_complete r "").
  - apply IH. now apply (deriv_complete r (String a s)).
Qed.

Lemma nullable_sound (r : Re.regex) :
  Re.nullable r = true -> Re.Matches r "".
Proof.
  induction r; simpl; intros H; try discriminate.
  - constructor.
  - apply andb_true_iff in H as [H1 H2].
    change "" with ("" ++ "")%string. constructor; auto.
  - apply orb_true_iff in H as [H | H];
      [apply Re.MAltL | apply Re.MAltR]; auto.
Qed.

Lemma deriv_sound (a : ascii) (r : Re.regex) :
  forall s, Re.Matches (Re.deriv a r) s -> Re.Matches r (String a s).
Proof.
  induction r; simpl; intros s H.
  - inversion H.
  - inversion H.
  - destruct (Ascii.eqb a c) eqn:E; inversion H; subst.
    apply Ascii.eqb_eq in E. subst. constructor.
  - destruct (Re.in_class ranges a) eqn:E; inversion H; subst.
    now constructor.
  - assert (Hleft : forall t, Re.Matches (Re.Seq (Re.deriv a r1) r2) t ->
                               Re.Matches (Re.Seq r1 r2) (String a t)).
    { intros t Ht. inversion Ht; subst.
      change (String a (s1 ++ s2)) with ((String a s1) ++ s2)%string.
      constructor; auto. }
    destruct (Re.nullable r1) eqn:N.
    + inversion H; subst; [now apply Hleft |].
      change (String a s) with ("" ++ String a s)%string.
      constructor; [now apply nullable_sound | auto].
    + now apply Hleft.
  - inversion H; subst; [apply Re.MAltL | apply Re.MAltR]; auto.
Qed.

(** The derivative matcher accepts exactly the language of the regex. *)
Lemma fullmatch_iff (s : string) :
  forall r, Re.fullmatch r s = true <-> Re.Matches r s.
Proof.
  intros r; split; [| apply fullmatch_complete].
  revert r. induction s as [| a s IH]; intros r H; simpl in H.
  - now apply nullable_sound.
  - apply deriv_sound. now apply IH.
Qed.

Lemma matches_lit (s : string) : Re.Matches (Re.lit s) s.
Proof.
  induction s as [| c s IH]; simpl.
  - constructor.
  - change (String c s) with (String c "" ++ s)%string.
    constructor; [constructor | assumption].
Qed.

Lemma matches_times (r : Re.regex) (cs : list ascii) :
  Forall (fun c => Re.Matches r (String c "")) cs ->
  Re.Matches (Re.times (List.length cs) r) (string_of_list_ascii cs).
Proof.
  induction 1 as [| c cs Hc _ IH]; simpl.
  - constructor.
  - change (String c (string_of_list_ascii cs))
      with (String c "" ++ string_of_list_ascii cs)%string.
    now constructor.
Qed.

(** ** The random source *)

Lemma floor_mul_36 (k : Z) :
  0 <= k < 2 ^ 53 -> 0 <= PyRandom.floor_mul k 36 < 36.
Proof.
  intros Hk. unfold PyRandom.floor_mul, PyRandom.round53.
  rewrite Z.shiftr_div_pow2 by lia.
  set (m := k * 36).
  assert (Hm : 0 <= m <= 36 * 2 ^ 53 - 36) by (unfold m; lia).
  destruct (m <? 2 ^ 53) eqn:Hlt.
  - apply Z.ltb_lt in Hlt.
    rewrite Z.div_small by lia. lia.
  - apply Z.ltb_ge in Hlt.
    assert (Hlo : 53 <= Z.log2 m) by (apply Z.log2_le_pow2; lia).
    assert (Hhi : Z.log2 m < 59).
    { apply Z.log2_lt_pow2; [lia |].
      change (2 ^ 59) with (64 * 2 ^ 53). lia. }
    set (e := Z.log2 m - 52).
    assert (He : 1 <= e <= 6) by (unfold e; lia).
    rewrite !Z.shiftr_div_pow2, !Z.shiftl_mul_pow2 by lia.
    rewrite Z.mul_1_l.
    set (q := m / 2 ^ e).
    assert (Hpe : 2 ^ e = 2 * 2 ^ (e - 1)).
    { replace e with (Z.succ (e - 1)) at 1 by lia.
      apply Z.pow_succ_r. lia. }
    assert (Hpos : 0 < 2 ^ (e - 1)) by (apply Z.pow_pos_nonneg; lia).
    assert (Hsmall : 2 ^ (e - 1) <= 32).
    { change 32 with (2 ^ 5). apply Z.pow_le_mono_r; lia. }
    assert (Hdiv : (2 ^ e | 36 * 2 ^ 53)).
    { exists (36 * 2 ^ (53 - e)).
      rewrite <- Z.mul_assoc, <- Z.pow_add_r by lia.
      now replace (53 - e + e) with 53 by lia. }
    destruct Hdiv as [c Hc].
    assert (Hqr : m = 2 ^ e * q + m mod 2 ^ e) by (apply Z.div_mod; lia).
    assert (Hr : 0 <= m mod 2 ^ e < 2 ^ e) by (apply Z.mod_pos_bound; lia).
    assert (Hres :
      0 <= (if (2 ^ (e - 1) <? m - q * 2 ^ e)
               || ((m - q * 2 ^ e =? 2 ^ (e - 1)) && Z.odd q)
            then q + 1 else q) * 2 ^ e < 36 * 2 ^ 53).
    { assert (Hq0 : 0 <= q) by (apply Z.div_pos; lia).
      destruct ((2 ^ (e - 1) <? m - q * 2 ^ e)
                || ((m - q * 2 ^ e =? 2 ^ (e - 1)) && Z.odd q)) eqn:Hup.
      - assert (Hhalf : 2 ^ (e - 1) <= m - q * 2 ^ e).
        { apply orb_true_iff in Hup as [Hup | Hup].
          - apply Z.ltb_lt in Hup. lia.
          - apply andb_true_iff in Hup as [Hup _].
            apply Z.eqb_eq in Hup. lia. }
        split; [nia | nia].
      - split; [nia | nia]. }
    split.
    + apply Z.div_pos; lia.
    + apply Z.div_lt_upper_bound; lia.
Qed.

(** ** The key generator *)

Lemma getitem_alphabet (i : Z) :
  0 <= i < 36 ->
  exists c, getitem key_alphabet i = Return c /\
            Re.Matches upper_or_digit (String c "").
Proof.
  intros Hi.
  replace i with (Z.of_nat (Z.to_nat i)) by lia.
  assert (Hn : (Z.to_nat i < 36)%nat) by lia.
  revert Hn. generalize (Z.to_nat i) as n. intros n Hn.
  do 36 (destruct n as [| n];
         [eexists; split;
          [vm_compute; reflexivity | constructor; vm_compute; reflexivity] |]).
  lia.
Qed.

(** Drawing characters leaves the trace alone, whatever the generator
    returns. *)
Lemma choices_trace (population : string) (k : nat) (env : Env) :
  forall st, trace (snd (PyRandom.choices population k env st)) = trace st.
Proof.
  induction k as [| k IH]; intros st; cbn [PyRandom.choices];
    [reflexivity |].
  unfold PyRandom.random. run_monad.
  destruct (getitem population _) as [c | e]; [| reflexivity].
  specialize (IH (mk_state (trace st) (S (drawn st)))).
  destruct (PyRandom.choices population k env _) as [[cs | e] st'];
    exact IH.
Qed.

Lemma for_range_trace {S} (body : S -> M S) (env : Env) :
  (forall acc st, trace (snd (body acc env st)) = trace st) ->
  forall n acc st, trace (snd (for_range n body acc env st)) = trace st.
Proof.
  intros Hbody. induction n as [| n IH]; intros acc st; simpl; [reflexivity |].
  run_monad. specialize (Hbody acc st).
  destruct (body acc env st) as [[acc' | e] st']; simpl in Hbody.
  - now rewrite IH.
  - assumption.
Qed.

Lemma generate_license_key_trace (env : Env) (st : State) :
  trace (snd (generate_license_key env st)) = trace st.
Proof.
  unfold generate_license_key. run_monad.
  match goal with
  | |- context [for_range 3 ?b [] env st] =>
    assert (H : trace (snd (for_range 3 b [] env st)) = trace st);
    [ apply for_range_trace; intros acc st0; run_monad;
      pose proof (choices_trace (ascii_uppercase ++ digits) 4 env st0) as Hc;
      destruct (PyRandom.choices _ 4 env st0) as [[cs | e] st1]; exact Hc
    | destruct (for_range 3 b [] env st) as [[parts | e] st']; exact H ]
  end.
Qed.

(** With a well-formed generator, [k] draws from the alphabet give [k]
    characters of the class [[A-Z0-9]]. *)
Lemma choices_alphabet (env : Env) :
  random_ok env ->
  forall k st, exists cs,
    PyRandom.choices key_alphabet k env st
      = (Return cs, mk_state (trace st) (drawn st + k)%nat) /\
    List.length cs = k /\
    Forall (fun c => Re.Matches upper_or_digit (String c "")) cs.
Proof.
  intros Hrand. induction k as [| k IH]; intros st.
  - exists []. simpl. unfold ret. rewrite Nat.add_0_r.
    destruct st; auto.
  - cbn [PyRandom.choices]. unfold PyRandom.random. run_monad.
    change (Z.of_nat (String.length key_alphabet)) with 36.
    destruct (getitem_alphabet
                (PyRandom.floor_mul (random53 env (drawn st)) 36))
      as [c [Hget Hc]].
    { apply floor_mul_36, Hrand. }
    rewrite Hget.
    destruct (IH (mk_state (trace st) (S (drawn st)))) as [cs [Hrun [Hlen Hall]]].
    rewrite Hrun. cbn [trace drawn].
    exists (c :: cs). repeat split.
    + now rewrite Nat.add_succ_r.
    + simpl. now rewrite Hlen.
    + now constructor.
Qed.

(** The generator returns, and what it returns is [PRO-] and three
    hyphen-separated groups of four characters of [[A-Z0-9]]. *)
Lemma generate_license_key_groups (env : Env) (st : State) :
  random_ok env ->
  exists g1 g2 g3,
    generate_license_key env st
      = (Return ("PRO-" ++ string_of_list_ascii g1 ++ "-" ++
                 string_of_list_ascii g2 ++ "-" ++
                 string_of_list_ascii g3)%string,
         mk_state (trace st) (drawn st + 12)%nat) /\
    (List.length g1 = 4 /\ List.length g2 = 4 /\ List.length g3 = 4)%nat /\
    Forall (fun c => Re.Matches upper_or_digit (String c "")) (g1 ++ g2 ++ g3).
Proof.
  intros Hrand. unfold generate_license_key.
  fold key_alphabet. cbn [for_range]. run_monad.
  destruct (choices_alphabet env Hrand 4 st) as [g1 [R1 [L1 F1]]].
  rewrite R1.
  destruct (choices_alphabet env Hrand 4 (mk_state (trace st) (drawn st + 4)))
    as [g2 [R2 [L2 F2]]].
  rewrite R2. cbn [trace drawn].
  destruct (choices_alphabet env Hrand 4
              (mk_state (trace st) (drawn st + 4 + 4)))
    as [g3 [R3 [L3 F3]]].
  rewrite R3. cbn [trace drawn].
  exists g1, g2, g3. repeat split; auto.
  - simpl. do 2 f_equal. lia.
  - rewrite !Forall_app. auto.
Qed.

(** ** The paths of [create_license] *)

(** [create_license] runs along exactly one of its paths; the events
    are added to the trace it started with. *)
Lemma create_license_path (env : Env) (email : string) (days_valid : Z)
    (st : State) :
  exists o evs st1,
    create_license email days_valid env st = (o, after st1 evs) /\
    trace st1 = trace st /\
    issue_path env email days_valid st o evs.
Proof.
  unfold create_license. run_monad.
  destruct (truthy (SUPABASE_SERVICE_KEY env)) eqn:Hk; cbn [negb]; run_monad.
  2: { exists (Return PyNone). eexists. exists st. split; [| split].
       2: reflexivity.
       2: { now apply issue_unconfigured. }
       close_trace. }
  pose proof (generate_license_key_trace env st) as Htr.
  destruct (generate_license_key env st) as [[key | e] st1] eqn:Hgen;
    cbn [snd] in Htr.
  2: { exists (Raise e), [], st1. rewrite after_nil.
       split; [reflexivity | split; [assumption |]].
       eapply issue_no_key; eassumption. }
  destruct (expiry (clock env) days_valid) as [expires | e] eqn:Hexp.
  2: { exists (Raise e), [], st1. rewrite after_nil.
       split; [reflexivity | split; [assumption |]].
       eapply issue_no_expiry; eassumption. }
  fold STORE_ENDPOINT.
  change (mk_request STORE_ENDPOINT _ _)
    with (store_request (SUPABASE_SERVICE_KEY env) key email
            (Datetime.isoformat expires)).
  destruct (network env (store_request (SUPABASE_SERVICE_KEY env) key email
                           (Datetime.isoformat expires)))
    as [resp | e] eqn:Hnet.
  2: { exists (Raise e). eexists. exists st1. split; [| split].
       2: assumption.
       2: { eapply issue_store_raised; eassumption. }
       close_trace. }
  fold (accepted resp).
  destruct (accepted resp) eqn:Hacc; run_monad.
  2: { exists (Return PyNone). eexists. exists st1. split; [| split].
       2: assumption.
       2: { eapply issue_rejected; eassumption. }
       close_trace. }
  match goal with
  | |- context [send_email email key env ?s] =>
    destruct (send_email_path env email key s) as [o [mail [Hrun Hmail]]];
    rewrite Hrun
  end.
  exists o. eexists. exists st1. split; [| split].
  2: assumption.
  2: { eapply issue_accepted; eassumption. }
  destruct o as [v | e]; [inversion Hmail; subst |]; close_trace.
Qed.

(** A run of [create_license] from the initial state. *)
Lemma run_create_license (env : Env) (email : string) (days_valid : Z) :
  exists o evs,
    run (create_license email days_valid) env = (o, evs) /\
    issue_path env email days_valid initial o evs.
Proof.
  destruct (create_license_path env email days_valid initial)
    as [o [evs [st1 [Hrun [Htr Hpath]]]]].
  exists o, evs. split; [| assumption].
  unfold run. rewrite Hrun. unfold after. cbn [trace].
  now rewrite Htr.
Qed.

Lemma endpoints_differ : EMAIL_ENDPOINT <> STORE_ENDPOINT.
Proof. intros H. vm_compute in H. discriminate H. Qed.

Lemma accepted_iff (resp : Response) :
  accepted resp = true <-> status_code resp = 200 \/ status_code resp = 201.
Proof.
  unfold accepted. rewrite orb_true_iff, !Z.eqb_eq. tauto.
Qed.

Lemma rejected_iff (resp : Response) :
  accepted resp = false <-> status_code resp <> 200 /\ status_code resp <> 201.
Proof.
  unfold accepted. rewrite orb_false_iff, !Z.eqb_neq. tauto.
Qed.

(** Split a run of [create_license] into its paths, and the path of
    [send_email] inside it. *)
Ltac issue_cases env email days :=
  let o := fresh "o" in
  let evs := fresh "evs" in
  let Hrun := fresh "Hrun" in
  let Hpath := fresh "Hpath" in
  destruct (run_create_license env email days) as [o [evs [Hrun Hpath]]];
  rewrite Hrun in *; cbn [fst snd] in *;
  inversion Hpath; subst;
  try match goal with
      | H : mail_path _ _ _ _ _ |- _ => inversion H; subst
      end.

(** Which request of a concrete trace a hypothesis [In (Posted rq) tr]
    speaks of. *)
Ltac pick_request H :=
  cbn [In app] in H;
  try contradiction;
  repeat (destruct H as [H | H]; try discriminate H; try contradiction);
  try (injection H as H; subst).

(** Two answers of the network to one request are one answer. *)
Ltac same_answer :=
  repeat match goal with
         | H1 : network ?env ?r = Return ?a,
           H2 : network ?env ?r = Return ?b |- _ =>
           assert (a = b) by congruence; subst; clear H2
         end.

(** A request to the one endpoint is not a request to the other. *)
Ltac wrong_endpoint :=
  match goal with
  | H : url (mail_request _ _ _) = STORE_ENDPOINT |- _ =>
    exfalso; exact (endpoints_differ H)
  | H : url (store_request _ _ _ _) = EMAIL_ENDPOINT |- _ =>
    exfalso; exact (endpoints_differ (eq_sym H))
  end.

(** ** The issuance workflow *)

(** C1.  When the store credential is configured and the store answers
    the insert with a status other than 200 and 201, the invocation
    reports the failure with the store's response text verbatim, and
    [send_email] is not invoked: the run is exactly the announcement,
    the one request to the store and the failure line. *)
Theorem store_rejection_is_reported_and_not_mailed :
  forall (env : Env) (email : string) (days_valid : Z)
         (rq : Request) (resp : Response),
    truthy (SUPABASE_SERVICE_KEY env) = true ->
    In (Posted rq) (snd (run (create_license email days_valid) env)) ->
    url rq = STORE_ENDPOINT ->
    network env rq = Return resp ->
    status_code resp <> 200 ->
    status_code resp <> 201 ->
    run (create_license email days_valid) env
      = (Return PyNone,
         [Printed ("Creating license for " ++ email ++ "...");
          Posted rq;
          Printed ("FAILED to create license: " ++ text resp)]) /\
    send_email_calls (snd (run (create_license email days_valid) env)) = [] /\
    requests_of (snd (run (create_license email days_valid) env)) = [rq].
Proof.
  intros env email days rq resp Hkey Hin Hurl Hnet H200 H201.
  assert (Hrej : accepted resp = false) by (apply rejected_iff; auto).
  issue_cases env email days; pick_request Hin;
    try wrong_endpoint; same_answer; try congruence.
  repeat split.
Qed.

(** C2.  When the store answers the insert with 200 or 201,
    [send_email] is invoked exactly once, with the email and the
    license key of the record that was sent to the store. *)
Theorem accepted_insert_is_mailed_once :
  forall (env : Env) (email : string) (days_valid : Z)
         (rq : Request) (resp : Response),
    In (Posted rq) (snd (run (create_license email days_valid) env)) ->
    url rq = STORE_ENDPOINT ->
    network env rq = Return resp ->
    status_code resp = 200 \/ status_code resp = 201 ->
    exists key : string,
      lookup "license_key" (json rq) = Some key /\
      lookup "email" (json rq) = Some email /\
      send_email_calls (snd (run (create_license email days_valid) env))
        = [(email, key)].
Proof.
  intros env email days rq resp Hin Hurl Hnet Hok.
  apply accepted_iff in Hok.
  issue_cases env email days; pick_request Hin;
    try wrong_endpoint; same_answer; try congruence;
    exists key; repeat split.
Qed.

(** C3.  With the store credential absent from the environment, the
    invocation reports the missing configuration and returns; no
    request is sent, neither to the store nor to the mail provider. *)
Theorem missing_credential_fails_without_network :
  forall (env : Env) (email : string) (days_valid : Z),
    SUPABASE_SERVICE_KEY env = None ->
    run (create_license email days_valid) env
      = (Return PyNone,
         [Printed "ERROR: PROJECTOR_SUPABASE_SERVICE_KEY environment variable is not set.";
          Printed "Please grab the 'service_role' secret from Supabase Dashboard > Settings > API."]) /\
    requests_of (snd (run (create_license email days_valid) env)) = [].
Proof.
  intros env email days Hnone.
  assert (Hk : truthy (SUPABASE_SERVICE_KEY env) = false)
    by (rewrite Hnone; reflexivity).
  issue_cases env email days; try congruence.
  split; reflexivity.
Qed.

Lemma store_rejection_is_reported_and_not_mailed_witness :
  run (create_license Sample.email 30)
      (Sample.env Sample.service_key Sample.api_key Sample.conflict Sample.sent)
    = (Return PyNone,
       [Printed ("Creating license for " ++ Sample.email ++ "...");
        Posted Sample.store_rq;
        Printed ("FAILED to create license: " ++
                 "duplicate key value violates unique constraint")]) /\
  send_email_calls
    (snd (run (create_license Sample.email 30)
            (Sample.env Sample.service_key Sample.api_key
               Sample.conflict Sample.sent))) = [] /\
  requests_of
    (snd (run (create_license Sample.email 30)
            (Sample.env Sample.service_key Sample.api_key
               Sample.conflict Sample.sent))) = [Sample.store_rq].
Proof.
  apply (store_rejection_is_reported_and_not_mailed
           (Sample.env Sample.service_key Sample.api_key
              Sample.conflict Sample.sent)
           Sample.email 30 Sample.store_rq
           (mk_response 409 "duplicate key value violates unique constraint")).
  - reflexivity.
  - vm_compute. right. left. reflexivity.
  - reflexivity.
  - reflexivity.
  - vm_compute. discriminate.
  - vm_compute. discriminate.
Defined.

Lemma accepted_insert_is_mailed_once_witness :
  exists key : string,
    lookup "license_key" (json Sample.store_rq) = Some key /\
    lookup "email" (json Sample.store_rq) = Some Sample.email /\
    send_email_calls
      (snd (run (create_license Sample.email 30)
              (Sample.env Sample.service_key Sample.api_key
                 Sample.created Sample.sent)))
      = [(Sample.email, key)].
Proof.
  apply (accepted_insert_is_mailed_once
           (Sample.env Sample.service_key Sample.api_key
              Sample.created Sample.sent)
           Sample.email 30 Sample.store_rq (mk_response 201 "")).
  - vm_compute. right. left. reflexivity.
  - reflexivity.
  - reflexivity.
  - right. reflexivity.
Defined.

Lemma missing_credential_fails_without_network_witness :
  run (create_license Sample.email 365)
      (Sample.env None Sample.api_key Sample.created Sample.sent)
    = (Return PyNone,
       [Printed "ERROR: PROJECTOR_SUPABASE_SERVICE_KEY environment variable is not set.";
        Printed "Please grab the 'service_role' secret from Supabase Dashboard > Settings > API."]) /\
  requests_of
    (snd (run (create_license Sample.email 365)
            (Sample.env None Sample.api_key Sample.created Sample.sent))) = [].
Proof.
  apply (missing_credential_fails_without_network
           (Sample.env None Sample.api_key Sample.created Sample.sent)
           Sample.email 365).
  reflexivity.
Defined.

(** ** Notification *)

(** A run of [send_email] from the initial state. *)
Lemma run_send_email (env : Env) (to_email license_key : string) :
  exists o evs,
    run (send_email to_email license_key) env = (o, evs) /\
    mail_path env to_email license_key o evs.
Proof.
  destruct (send_email_path env to_email license_key initial)
    as [o [evs [Hrun Hpath]]].
  exists o, evs. split; [| assumption].
  unfold run. now rewrite Hrun.
Qed.

(** C4.  After the store has accepted the insert, a notification
    failure does not change how [create_license] ends: the run returns
    normally after the same five events of the issuance, whatever
    [send_email] meets.  Without a mail credential no request goes to
    the mail provider; a status other than 200, or an exception of
    class [Exception] raised by the request, is printed and goes no
    further. *)
Theorem notification_failure_keeps_license_issued :
  forall (env : Env) (email : string) (days_valid : Z)
         (rq : Request) (resp : Response),
    In (Posted rq) (snd (run (create_license email days_valid) env)) ->
    url rq = STORE_ENDPOINT ->
    network env rq = Return resp ->
    status_code resp = 200 \/ status_code resp = 201 ->
    exists key expires_at : string,
      let issued :=
        [Printed ("Creating license for " ++ email ++ "...");
         Posted rq;
         Printed "SUCCESS: License Created!";
         Printed ("Key: " ++ key);
         Printed ("Expires: " ++ expires_at)] in
      let mail_rq := mail_request (RESEND_API_KEY env) email key in
      lookup "license_key" (json rq) = Some key /\
      lookup "current_period_end" (json rq) = Some expires_at /\
      (truthy (RESEND_API_KEY env) = false ->
       run (create_license email days_valid) env
         = (Return PyNone,
            (issued ++
             [Entered_send_email email key;
              Printed "WARNING: RESEND_API_KEY not found. Skipping email.";
              Printed ("Please manually send key " ++ key ++ " to " ++ email)])%list)
       /\ requests_of (snd (run (create_license email days_valid) env)) = [rq])
      /\
      (forall mresp : Response,
         truthy (RESEND_API_KEY env) = true ->
         network env mail_rq = Return mresp ->
         status_code mresp <> 200 ->
         run (create_license email days_valid) env
           = (Return PyNone,
              (issued ++
               [Entered_send_email email key;
                Printed "Sending email via Resend...";
                Posted mail_rq;
                Printed ("Email failed: " ++ text mresp)])%list))
      /\
      (forall e : PyExc,
         truthy (RESEND_API_KEY env) = true ->
         network env mail_rq = Raise e ->
         is_Exception e = true ->
         run (create_license email days_valid) env
           = (Return PyNone,
              (issued ++
               [Entered_send_email email key;
                Printed "Sending email via Resend...";
                Posted mail_rq;
                Printed ("Email error: " ++ exc_str e)])%list)).
Proof.
  intros env email days rq resp Hin Hurl Hnet Hok.
  apply accepted_iff in Hok.
  issue_cases env email days; pick_request Hin;
    try wrong_endpoint; same_answer; try congruence;
    exists key, (Datetime.isoformat expires);
    cbn zeta; (split; [reflexivity |]); (split; [reflexivity |]);
    (split; [| split]); intros; try congruence.
  - split; reflexivity.
  - same_answer.
    match goal with
    | H : status_code ?r <> 200 |- _ =>
      apply Z.eqb_neq in H; rewrite H
    end.
    reflexivity.
Qed.

Lemma notification_failure_keeps_license_issued_witness :
  let env := Sample.env Sample.service_key Sample.api_key
               Sample.created Sample.unreachable in
  exists key expires_at : string,
    let issued :=
      [Printed ("Creating license for " ++ Sample.email ++ "...");
       Posted Sample.store_rq;
       Printed "SUCCESS: License Created!";
       Printed ("Key: " ++ key);
       Printed ("Expires: " ++ expires_at)] in
    let mail_rq := mail_request (RESEND_API_KEY env) Sample.email key in
    lookup "license_key" (json Sample.store_rq) = Some key /\
    lookup "current_period_end" (json Sample.store_rq) = Some expires_at /\
    (truthy (RESEND_API_KEY env) = false ->
     run (create_license Sample.email 30) env
       = (Return PyNone,
          (issued ++
           [Entered_send_email Sample.email key;
            Printed "WARNING: RESEND_API_KEY not found. Skipping email.";
            Printed ("Please manually send key " ++ key ++ " to " ++
                     Sample.email)])%list)
     /\ requests_of (snd (run (create_license Sample.email 30) env))
        = [Sample.store_rq])
    /\
    (forall mresp : Response,
       truthy (RESEND_API_KEY env) = true ->
       network env mail_rq = Return mresp ->
       status_code mresp <> 200 ->
       run (create_license Sample.email 30) env
         = (Return PyNone,
            (issued ++
             [Entered_send_email Sample.email key;
              Printed "Sending email via Resend...";
              Posted mail_rq;
              Printed ("Email failed: " ++ text mresp)])%list))
    /\
    (forall e : PyExc,
       truthy (RESEND_API_KEY env) = true ->
       network env mail_rq = Raise e ->
       is_Exception e = true ->
       run (create_license Sample.email 30) env
         = (Return PyNone,
            (issued ++
             [Entered_send_email Sample.email key;
              Printed "Sending email via Resend...";
              Posted mail_rq;
              Printed ("Email error: " ++ exc_str e)])%list)).
Proof.
  intros env.
  apply (notification_failure_keeps_license_issued env Sample.email 30
           Sample.store_rq (mk_response 201 "")).
  - vm_compute. right. left. reflexivity.
  - reflexivity.
  - reflexivity.
  - right. reflexivity.
Defined.

(** ** What the caller gets back *)

(** C9.  [create_license] never returns anything but [None]: when the
    store credential is missing, when the store rejects the insert and
    when it accepts it, the call returns [None], so the return value
    does not tell success from failure. *)
Theorem create_license_returns_none :
  forall (env : Env) (email : string) (days_valid : Z),
    (forall v : PyValue,
       fst (run (create_license email days_valid) env) = Return v ->
       v = PyNone) /\
    (truthy (SUPABASE_SERVICE_KEY env) = false ->
     fst (run (create_license email days_valid) env) = Return PyNone) /\
    (forall (rq : Request) (resp : Response),
       In (Posted rq) (snd (run (create_license email days_valid) env)) ->
       url rq = STORE_ENDPOINT ->
       network env rq = Return resp ->
       accepted resp = false ->
       fst (run (create_license email days_valid) env) = Return PyNone) /\
    (forall (rq : Request) (resp : Response),
       In (Posted rq) (snd (run (create_license email days_valid) env)) ->
       url rq = STORE_ENDPOINT ->
       network env rq = Return resp ->
       accepted resp = true ->
       (forall mrq e, network env mrq = Raise e -> is_Exception e = true) ->
       fst (run (create_license email days_valid) env) = Return PyNone).
Proof.
  intros env email days. repeat split.
  - intros v Hv.
    issue_cases env email days; congruence.
  - intros Hk.
    issue_cases env email days; congruence.
  - intros rq resp Hin Hurl Hnet Hrej.
    issue_cases env email days; pick_request Hin;
      try wrong_endpoint; same_answer; congruence.
  - intros rq resp Hin Hurl Hnet Hacc Hexc.
    issue_cases env email days; pick_request Hin;
      try wrong_endpoint; same_answer; try congruence;
      match goal with
      | H : network env _ = Raise ?e |- _ =>
        apply Hexc in H; congruence
      end.
Qed.

Lemma create_license_returns_none_witness :
  fst (run (create_license Sample.email 30)
         (Sample.env None Sample.api_key Sample.created Sample.sent))
    = Return PyNone /\
  fst (run (create_license Sample.email 30)
         (Sample.env Sample.service_key Sample.api_key
            Sample.conflict Sample.sent))
    = Return PyNone /\
  fst (run (create_license Sample.email 30)
         (Sample.env Sample.service_key Sample.api_key
            Sample.created Sample.refused))
    = Return PyNone.
Proof.
  split; [| split].
  - apply (create_license_returns_none
             (Sample.env None Sample.api_key Sample.created Sample.sent)
             Sample.email 30).
    reflexivity.
  - apply (proj1 (proj2 (proj2
             (create_license_returns_none
                (Sample.env Sample.service_key Sample.api_key
                   Sample.conflict Sample.sent)
                Sample.email 30)))
             Sample.store_rq
             (mk_response 409 "duplicate key value violates unique constraint")).
    + vm_compute. right. left. reflexivity.
    + reflexivity.
    + reflexivity.
    + reflexivity.
  - apply (proj2 (proj2 (proj2
             (create_license_returns_none
                (Sample.env Sample.service_key Sample.api_key
                   Sample.created Sample.refused)
                Sample.email 30)))
             Sample.store_rq (mk_response 201 "")).
    + vm_compute. right. left. reflexivity.
    + reflexivity.
    + reflexivity.
    + reflexivity.
    + intros mrq e. unfold Sample.env, Sample.network; cbn [network].
      destruct (String.eqb (url mrq) EMAIL_ENDPOINT); discriminate.
Defined.

(** C10.  An exception raised by the request to the store leaves
    [create_license] as it was raised: the run ends in that exception
    right after the request, and no failure line is printed.  The
    request of [send_email] sits in a handler instead: an exception of
    class [Exception] raised there is caught and [send_email] returns. *)
Theorem store_exception_propagates :
  forall (env : Env) (email : string) (days_valid : Z)
         (rq : Request) (e : PyExc),
    In (Posted rq) (snd (run (create_license email days_valid) env)) ->
    url rq = STORE_ENDPOINT ->
    network env rq = Raise e ->
    run (create_license email days_valid) env
      = (Raise e,
         [Printed ("Creating license for " ++ email ++ "...");
          Posted rq]) /\
    (forall (to_email license_key : string) (mrq : Request) (e' : PyExc),
       In (Posted mrq) (snd (run (send_email to_email license_key) env)) ->
       network env mrq = Raise e' ->
       is_Exception e' = true ->
       run (send_email to_email license_key) env
         = (Return PyNone,
            [Entered_send_email to_email license_key;
             Printed "Sending email via Resend...";
             Posted mrq;
             Printed ("Email error: " ++ exc_str e')])).
Proof.
  intros env email days rq e Hin Hurl Hnet. split.
  - issue_cases env email days; pick_request Hin;
      try wrong_endpoint; congruence.
  - intros to_email license_key mrq e' Hin' Hnet' He'.
    destruct (run_send_email env to_email license_key)
      as [o [evs [Hrun Hpath]]].
    rewrite Hrun in *. cbn [snd] in Hin'.
    inversion Hpath; subst; pick_request Hin'; congruence.
Qed.

Lemma store_exception_propagates_witness :
  run (create_license Sample.email 30)
      (Sample.env Sample.service_key Sample.api_key
         Sample.unreachable Sample.sent)
    = (Raise (Exception "ConnectionError" "Max retries exceeded"),
       [Printed ("Creating license for " ++ Sample.email ++ "...");
        Posted Sample.store_rq]).
Proof.
  refine (proj1 (store_exception_propagates
           (Sample.env Sample.service_key Sample.api_key
              Sample.unreachable Sample.sent)
           Sample.email 30 Sample.store_rq
           (Exception "ConnectionError" "Max retries exceeded") _ _ _)).
  - vm_compute. right. left. reflexivity.
  - reflexivity.
  - reflexivity.
Defined.

(** ** The format of a generated key *)

(** C5.  With a generator whose outputs lie in [[0, 1)], the key
    generator returns a string, and the string matches
    [^PRO-[A-Z0-9]{4}-[A-Z0-9]{4}-[A-Z0-9]{4}$]. *)
Theorem generated_key_matches_pattern :
  forall (env : Env) (st : State),
    random_ok env ->
    exists (key : string) (st' : State),
      generate_license_key env st = (Return key, st') /\
      Re.fullmatch license_key_pattern key = true.
Proof.
  intros env st Hrand.
  destruct (generate_license_key_groups env st Hrand)
    as [g1 [g2 [g3 [Hrun [[L1 [L2 L3]] Hall]]]]].
  apply Forall_app in Hall as [F1 Hall].
  apply Forall_app in Hall as [F2 F3].
  eexists. eexists. split; [exact Hrun |].
  apply fullmatch_complete. unfold license_key_pattern.
  apply Re.MSeq; [apply matches_lit |].
  apply Re.MSeq; [rewrite <- L1; now apply matches_times |].
  apply Re.MSeq; [constructor |].
  apply Re.MSeq; [rewrite <- L2; now apply matches_times |].
  apply Re.MSeq; [constructor |].
  rewrite <- L3. now apply matches_times.
Qed.

Lemma generated_key_matches_pattern_witness :
  exists (key : string) (st' : State),
    generate_license_key
      (Sample.env Sample.service_key Sample.api_key Sample.created Sample.sent)
      initial = (Return key, st') /\
    Re.fullmatch license_key_pattern key = true.
Proof.
  apply (generated_key_matches_pattern
           (Sample.env Sample.service_key Sample.api_key
              Sample.created Sample.sent) initial).
  intros i. unfold Sample.env, Sample.random53; cbn [random53].
  apply Z.mod_pos_bound. reflexivity.
Defined.

(** ** The command line *)

(** With an email argument and a number of days that [int] reads (or
    none), the script is one call of [create_license]. *)
Lemma main_runs_create_license (py : Interpreter) (env : Env)
    (argv : list string) (days : Z) :
  (2 <= List.length argv)%nat ->
  (if (2 <? List.length argv)%nat
   then py_int py (nth 2 argv "") else Return 365) = Return days ->
  run (main py argv) env = run (create_license (nth 1 argv "") days) env.
Proof.
  intros Hlen Hdays. unfold run, main.
  destruct (List.length argv <? 2)%nat eqn:Hlt.
  - apply Nat.ltb_lt in Hlt. lia.
  - unfold bind at 1.
    destruct (2 <? List.length argv)%nat.
    + unfold lift at 1. rewrite Hdays. reflexivity.
    + unfold ret at 1. injection Hdays as <-. reflexivity.
Qed.

(** C8, as the code has it.  The script exits with status 0 both when
    the store credential is missing and when the store answers the
    insert with a status other than 200 and 201; a failure line is
    printed in either case.  On success the key and the expiration are
    printed.  The status is not zero only when the email argument is
    missing (usage, status 1) or an exception escapes, as when the
    request to the store raises.  This holds for every interpreter,
    whenever [int] reads the days argument, if there is one. *)
Theorem cli_exit_status :
  forall (py : Interpreter) (env : Env) (argv : list string),
    ((List.length argv < 2)%nat ->
     run (main py argv) env
       = (Raise (SystemExit 1),
          [Printed "Usage: python generate_license.py <customer_email> [days_valid]"])
     /\ exit_status (fst (run (main py argv) env)) = 1) /\
    (forall days : Z,
       (2 <= List.length argv)%nat ->
       (if (2 <? List.length argv)%nat
        then py_int py (nth 2 argv "") else Return 365) = Return days ->
       (truthy (SUPABASE_SERVICE_KEY env) = false ->
        exit_status (fst (run (main py argv) env)) = 0 /\
        printed (snd (run (main py argv) env))
          = ["ERROR: PROJECTOR_SUPABASE_SERVICE_KEY environment variable is not set.";
             "Please grab the 'service_role' secret from Supabase Dashboard > Settings > API."]) /\
       (forall (rq : Request) (resp : Response),
          In (Posted rq) (snd (run (main py argv) env)) ->
          url rq = STORE_ENDPOINT ->
          network env rq = Return resp ->
          accepted resp = false ->
          exit_status (fst (run (main py argv) env)) = 0 /\
          printed (snd (run (main py argv) env))
            = ["Creating license for " ++ nth 1 argv "" ++ "...";
               "FAILED to create license: " ++ text resp]) /\
       (forall (rq : Request) (resp : Response),
          In (Posted rq) (snd (run (main py argv) env)) ->
          url rq = STORE_ENDPOINT ->
          network env rq = Return resp ->
          accepted resp = true ->
          exists key expires_at : string,
            lookup "license_key" (json rq) = Some key /\
            lookup "current_period_end" (json rq) = Some expires_at /\
            In ("Key: " ++ key) (printed (snd (run (main py argv) env))) /\
            In ("Expires: " ++ expires_at)
               (printed (snd (run (main py argv) env)))) /\
       (forall (rq : Request) (cls msg : string),
          In (Posted rq) (snd (run (main py argv) env)) ->
          url rq = STORE_ENDPOINT ->
          network env rq = Raise (Exception cls msg) ->
          exit_status (fst (run (main py argv) env)) = 1)).
Proof.
  intros py env argv. split.
  - intros Hlt. apply Nat.ltb_lt in Hlt.
    unfold run, main. rewrite Hlt. split; reflexivity.
  - intros days Hlen Hdays.
    rewrite (main_runs_create_license py env argv days Hlen Hdays).
    generalize (nth 1 argv "") as email. intros email.
    split; [| split; [| split]].
    + intros Hk.
      issue_cases env email days; try congruence.
      split; reflexivity.
    + intros rq resp Hin Hurl Hnet Hrej.
      issue_cases env email days; pick_request Hin;
        try wrong_endpoint; same_answer; try congruence.
      split; reflexivity.
    + intros rq resp Hin Hurl Hnet Hacc.
      assert (Hshape : exists key expires_at mail o,
                 run (create_license email days) env
                   = (o, [Printed ("Creating license for " ++ email ++ "...");
                          Posted rq;
                          Printed "SUCCESS: License Created!";
                          Printed ("Key: " ++ key);
                          Printed ("Expires: " ++ expires_at)] ++ mail)%list /\
                 lookup "license_key" (json rq) = Some key /\
                 lookup "current_period_end" (json rq) = Some expires_at).
      { destruct (run_create_license env email days) as [o [evs [Hrun Hpath]]].
        rewrite Hrun in *; cbn [fst snd] in *.
        inversion Hpath; subst; pick_request Hin;
          try wrong_endpoint; same_answer; try congruence.
        - exists key, (Datetime.isoformat expires), mail, o.
          repeat split.
        - exfalso.
          match goal with
          | Hm : mail_path _ _ _ _ _ |- _ =>
            inversion Hm; subst; pick_request Hin; wrong_endpoint
          end. }
      destruct Hshape as [key [expires_at [mail [o [Hrun [Hk He]]]]]].
      rewrite Hrun. cbn [snd app printed].
      exists key, expires_at. repeat split; auto.
      * right. right. left. reflexivity.
      * right. right. right. left. reflexivity.
    + intros rq cls msg Hin Hurl Hnet.
      issue_cases env email days; pick_request Hin;
        try wrong_endpoint; try congruence.
      match goal with
      | H1 : network ?env ?r = Raise ?a, H2 : network ?env ?r = Raise ?b |- _ =>
        assert (a = b) by congruence; subst
      end.
      reflexivity.
Qed.

Lemma cli_exit_status_witness :
  exit_status
    (fst (run (main sample_interpreter Sample.argv)
            (Sample.env None Sample.api_key Sample.created Sample.sent))) = 0 /\
  printed
    (snd (run (main sample_interpreter Sample.argv)
            (Sample.env None Sample.api_key Sample.created Sample.sent)))
    = ["ERROR: PROJECTOR_SUPABASE_SERVICE_KEY environment variable is not set.";
       "Please grab the 'service_role' secret from Supabase Dashboard > Settings > API."].
Proof.
  refine (proj1 (proj2 (cli_exit_status sample_interpreter
            (Sample.env None Sample.api_key Sample.created Sample.sent)
            Sample.argv) 30 _ _) _).
  - vm_compute. lia.
  - vm_compute. reflexivity.
  - reflexivity.
Defined.

(** The claim C8 as the specification states it fails on the code: with
    the store credential missing, and with the store answering 409, the
    script prints its failure line and exits with status 0. *)
Lemma cli_exits_zero_on_failure :
  (SUPABASE_SERVICE_KEY
     (Sample.env None Sample.api_key Sample.created Sample.sent) = None /\
   exit_status
     (fst (run (main sample_interpreter Sample.argv)
             (Sample.env None Sample.api_key Sample.created Sample.sent))) = 0)
  /\
  (network (Sample.env Sample.service_key Sample.api_key
              Sample.conflict Sample.sent) Sample.store_rq
     = Return (mk_response 409 "duplicate key value violates unique constraint") /\
   requests_of
     (snd (run (main sample_interpreter Sample.argv)
             (Sample.env Sample.service_key Sample.api_key
                Sample.conflict Sample.sent))) = [Sample.store_rq] /\
   exit_status
     (fst (run (main sample_interpreter Sample.argv)
             (Sample.env Sample.service_key Sample.api_key
                Sample.conflict Sample.sent))) = 0).
Proof.
  repeat split; vm_compute; reflexivity.
Qed.

(** ** The calendar *)

(** A property checked on [0 .. n-1] holds on that range. *)
Lemma forallb_range (P : Z -> bool) (n : nat) :
  forallb P (map Z.of_nat (seq 0 n)) = true ->
  forall z, 0 <= z < Z.of_nat n -> P z = true.
Proof.
  intros Hall z Hz.
  rewrite forallb_forall in Hall. apply Hall.
  apply in_map_iff. exists (Z.to_nat z). split; [lia |].
  apply in_seq. lia.
Qed.

(** Days before the year that follows [a] 400-year cycles, [b]
    centuries, [c] 4-year cycles and [d] years. *)
Lemma days_before_year_cycles (a b c d : Z) :
  0 <= b <= 3 -> 0 <= c <= 24 -> 0 <= d <= 3 ->
  Datetime.days_before_year (400 * a + 100 * b + 4 * c + d + 1)
    = 146097 * a + 36524 * b + 1461 * c + 365 * d.
Proof.
  intros Hb Hc Hd. unfold Datetime.days_before_year. cbv zeta.
  replace (400 * a + 100 * b + 4 * c + d + 1 - 1)
    with (400 * a + 100 * b + 4 * c + d) by lia.
  set (y := 400 * a + 100 * b + 4 * c + d).
  assert (H4 : y / 4 = 100 * a + 25 * b + c).
  { symmetry. apply (Z.div_unique y 4 _ d); unfold y; lia. }
  assert (H100 : y / 100 = 4 * a + b).
  { symmetry. apply (Z.div_unique y 100 _ (4 * c + d)); unfold y; lia. }
  assert (H400 : y / 400 = a).
  { symmetry. apply (Z.div_unique y 400 _ (100 * b + 4 * c + d));
      unfold y; lia. }
  rewrite H4, H100, H400. unfold y. lia.
Qed.

(** The leap-year test of [_ord2ymd] on its cycle counts is [_is_leap]. *)
Lemma is_leap_cycles (a b c d : Z) :
  0 <= b <= 3 -> 0 <= c <= 24 -> 0 <= d <= 3 ->
  Datetime.is_leap (400 * a + 100 * b + 4 * c + d + 1)
    = (d =? 3) && (negb (c =? 24) || (b =? 3)).
Proof.
  intros Hb Hc Hd. unfold Datetime.is_leap.
  set (y := 400 * a + 100 * b + 4 * c + d + 1).
  assert (H4 : y mod 4 = (d + 1) mod 4).
  { unfold y.
    replace (400 * a + 100 * b + 4 * c + d + 1)
      with (d + 1 + (100 * a + 25 * b + c) * 4) by lia.
    apply Z.mod_add. lia. }
  assert (H100 : y mod 100 = (4 * c + d + 1) mod 100).
  { unfold y.
    replace (400 * a + 100 * b + 4 * c + d + 1)
      with (4 * c + d + 1 + (4 * a + b) * 100) by lia.
    apply Z.mod_add. lia. }
  assert (H400 : y mod 400 = (100 * b + 4 * c + d + 1) mod 400).
  { unfold y.
    replace (400 * a + 100 * b + 4 * c + d + 1)
      with (100 * b + 4 * c + d + 1 + a * 400) by lia.
    apply Z.mod_add. lia. }
  rewrite H4, H100, H400.
  destruct (Z.eqb_spec d 3) as [-> | Hd3].
  - change ((3 + 1) mod 4) with 0. cbn [Z.eqb andb].
    destruct (Z.eqb_spec c 24) as [-> | Hc24].
    + change ((4 * 24 + 3 + 1) mod 100) with 0. cbn [Z.eqb negb orb].
      destruct (Z.eqb_spec b 3) as [-> | Hb3].
      * reflexivity.
      * apply Z.eqb_neq.
        rewrite Z.mod_small by lia. lia.
    + cbn [negb orb].
      assert (Hne : (4 * c + 3 + 1) mod 100 <> 0).
      { rewrite Z.mod_small by lia. lia. }
      apply Z.eqb_neq in Hne. rewrite Hne. reflexivity.
  - assert (Hne : (d + 1) mod 4 <> 0).
    { rewrite Z.mod_small by lia. lia. }
    apply Z.eqb_neq in Hne. rewrite Hne. reflexivity.
Qed.

Lemma month_day_checked (leapyear : bool) (n : Z) :
  0 <= n < 365 -> month_day_ok leapyear n = true.
Proof.
  intros Hn. apply (forallb_range (month_day_ok leapyear) 365); [| lia].
  destruct leapyear; vm_compute; reflexivity.
Qed.

Ltac bool_to_prop :=
  repeat match goal with
         | H : _ && _ = true |- _ => apply andb_true_iff in H as [? ?]
         | H : (_ <=? _) = true |- _ => apply Z.leb_le in H
         | H : (_ =? _) = true |- _ => apply Z.eqb_eq in H
         end.

(** [_ord2ymd] inverts [_ymd2ord], and gives a date the constructor
    accepts. *)
Lemma ord2ymd_correct (n : Z) :
  1 <= n ->
  let '(y, m, d) := Datetime.ord2ymd n in
  Datetime.ymd2ord y m d = n /\
  1 <= m <= 12 /\
  1 <= d <= Datetime.days_in_month y m /\
  1 <= y /\
  (n <= Datetime.MAXORDINAL -> y <= Datetime.MAXYEAR).
Proof.
  intros Hn.
  unfold Datetime.ord2ymd, Datetime.DI400Y, Datetime.DI100Y, Datetime.DI4Y,
    Datetime.MAXORDINAL, Datetime.MAXYEAR.
  cbv zeta.
  set (n0 := n - 1).
  set (a := n0 / 146097). set (r400 := n0 mod 146097).
  set (b := r400 / 36524). set (r100 := r400 mod 36524).
  set (c := r100 / 1461). set (r4 := r100 mod 1461).
  set (d := r4 / 365). set (r := r4 mod 365).
  assert (E0 : n0 = 146097 * a + r400) by (apply Z.div_mod; lia).
  assert (B0 : 0 <= r400 < 146097) by (apply Z.mod_pos_bound; lia).
  assert (E1 : r400 = 36524 * b + r100) by (apply Z.div_mod; lia).
  assert (B1 : 0 <= r100 < 36524) by (apply Z.mod_pos_bound; lia).
  assert (E2 : r100 = 1461 * c + r4) by (apply Z.div_mod; lia).
  assert (B2 : 0 <= r4 < 1461) by (apply Z.mod_pos_bound; lia).
  assert (E3 : r4 = 365 * d + r) by (apply Z.div_mod; lia).
  assert (B3 : 0 <= r < 365) by (apply Z.mod_pos_bound; lia).
  assert (Hn0 : 0 <= n0) by (unfold n0; lia).
  assert (Hnn : n = n0 + 1) by (unfold n0; lia).
  clearbody n0 a r400 b r100 c r4 d r.
  assert (Ha : 0 <= a) by lia.
  assert (Hb : 0 <= b <= 4) by lia.
  assert (Hc : 0 <= c <= 24) by lia.
  assert (Hd : 0 <= d <= 4) by lia.
  destruct (Z.eqb_spec d 4) as [Hd4 | Hd4].
  - (* the last day of a 4-year cycle *)
    cbn [orb].
    assert (Hb3 : b <= 3) by lia.
    assert (Hc23 : c <= 23) by lia.
    replace (a * 400 + 1 + (b * 100 + c * 4 + d) - 1)
      with (400 * a + 100 * b + 4 * c + 3 + 1) by lia.
    unfold Datetime.ymd2ord, Datetime.days_before_month, Datetime.days_in_month.
    rewrite days_before_year_cycles, is_leap_cycles by lia.
    assert (Hc24 : (c =? 24) = false) by (apply Z.eqb_neq; lia).
    rewrite Hc24.
    change (2 <? 12) with true. change (12 =? 2) with false.
    change (3 =? 3) with true. cbn [andb orb negb].
    change (Datetime.index Datetime.DAYS_BEFORE_MONTH 12) with 334.
    change (Datetime.index Datetime.DAYS_IN_MONTH 12) with 31.
    lia.
  - destruct (Z.eqb_spec b 4) as [Hb4 | Hb4].
    + (* the last day of a 400-year cycle *)
      cbn [orb].
      replace (a * 400 + 1 + (b * 100 + c * 4 + d) - 1)
        with (400 * a + 100 * 3 + 4 * 24 + 3 + 1) by lia.
      unfold Datetime.ymd2ord, Datetime.days_before_month,
        Datetime.days_in_month.
      rewrite days_before_year_cycles, is_leap_cycles by lia.
      change (2 <? 12) with true. change (12 =? 2) with false.
      change (3 =? 3) with true. change (24 =? 24) with true.
      cbn [andb orb negb].
      change (Datetime.index Datetime.DAYS_BEFORE_MONTH 12) with 334.
      change (Datetime.index Datetime.DAYS_IN_MONTH 12) with 31.
      lia.
    + cbn [orb].
      replace (a * 400 + 1 + (b * 100 + c * 4 + d))
        with (400 * a + 100 * b + 4 * c + d + 1) by lia.
      set (leapyear := (d =? 3) && (negb (c =? 24) || (b =? 3))).
      pose proof (month_day_checked leapyear r B3) as Hmd.
      unfold month_day_ok in Hmd.
      destruct (Datetime.month_day r leapyear) as [m dd].
      bool_to_prop.
      unfold Datetime.ymd2ord, Datetime.days_before_month,
        Datetime.days_in_month.
      rewrite days_before_year_cycles, is_leap_cycles by lia.
      fold leapyear.
      repeat split; try lia.
Qed.

(** ** Decimal fields *)

Lemma digit_char_ok (d : Z) :
  0 <= d < 10 ->
  PyStr.is_digit (PyStr.digit_char d) = true /\
  PyStr.digit_value (PyStr.digit_char d) = d.
Proof.
  intros Hd.
  assert (Hcases : d = 0 \/ d = 1 \/ d = 2 \/ d = 3 \/ d = 4 \/
                   d = 5 \/ d = 6 \/ d = 7 \/ d = 8 \/ d = 9) by lia.
  repeat (destruct Hcases as [-> | Hcases]; [split; reflexivity |]).
  subst d. split; reflexivity.
Qed.

Lemma zero_padded_length (w : nat) :
  forall n, List.length (PyStr.zero_padded w n) = w.
Proof.
  induction w as [| w IH]; intros n; cbn [PyStr.zero_padded].
  - reflexivity.
  - rewrite length_app, IH. cbn [List.length]. lia.
Qed.

Lemma zero_padded_digits (w : nat) :
  forall n, forallb PyStr.is_digit (PyStr.zero_padded w n) = true.
Proof.
  induction w as [| w IH]; intros n; cbn [PyStr.zero_padded].
  - reflexivity.
  - rewrite forallb_app, IH. cbn [forallb andb].
    destruct (digit_char_ok (n mod 10)) as [Hd _].
    { apply Z.mod_pos_bound. lia. }
    now rewrite Hd.
Qed.

Lemma zero_padded_value (w : nat) :
  forall n acc,
    0 <= n < 10 ^ Z.of_nat w ->
    fold_left (fun a c => 10 * a + PyStr.digit_value c)
              (PyStr.zero_padded w n) acc
      = acc * 10 ^ Z.of_nat w + n.
Proof.
  induction w as [| w IH]; intros n acc Hn; cbn [PyStr.zero_padded].
  - cbn [fold_left]. change (10 ^ Z.of_nat 0) with 1 in *. lia.
  - rewrite Nat2Z.inj_succ, Z.pow_succ_r in * by lia.
    rewrite fold_left_app. cbn [fold_left].
    rewrite IH.
    + destruct (digit_char_ok (n mod 10)) as [_ Hv].
      { apply Z.mod_pos_bound. lia. }
      rewrite Hv.
      pose proof (Z.div_mod n 10 ltac:(lia)). lia.
    + split.
      * apply Z.div_pos; lia.
      * apply Z.div_lt_upper_bound; lia.
Qed.

(** A zero-padded field reads back as the number it was written from. *)
Lemma parse_zero_padded (w : nat) (n : Z) :
  (0 < w)%nat ->
  0 <= n < 10 ^ Z.of_nat w ->
  PyStr.parse_digits (PyStr.zero_padded w n) = Some n.
Proof.
  intros Hw Hn. unfold PyStr.parse_digits.
  rewrite zero_padded_digits, zero_padded_value by assumption.
  destruct (PyStr.zero_padded w n) eqn:E.
  - apply (f_equal (@List.length ascii)) in E.
    rewrite zero_padded_length in E. cbn in E. lia.
  - f_equal.
Qed.

(** ** Writing and reading a datetime *)

(** Where the parser finds the separators and the fields in what
    [isoformat] writes. *)
Lemma iso_layout (Y Mo D H Mi S frac : list ascii) :
  List.length Y = 4%nat -> List.length Mo = 2%nat -> List.length D = 2%nat ->
  List.length H = 2%nat -> List.length Mi = 2%nat -> List.length S = 2%nat ->
  let cs := (Y ++ ["-"%char] ++ Mo ++ ["-"%char] ++ D ++ ["T"%char] ++
             H ++ [":"%char] ++ Mi ++ [":"%char] ++ S ++ frac)%list in
  Datetime.char_at 4 "-" cs = true /\
  Datetime.char_at 7 "-" cs = true /\
  Datetime.char_at 10 "T" cs = true /\
  Datetime.char_at 13 ":" cs = true /\
  Datetime.char_at 16 ":" cs = true /\
  Datetime.slice 0 4 cs = Y /\
  Datetime.slice 5 7 cs = Mo /\
  Datetime.slice 8 10 cs = D /\
  Datetime.slice 11 13 cs = H /\
  Datetime.slice 14 16 cs = Mi /\
  Datetime.slice 17 19 cs = S /\
  skipn 19 cs = frac.
Proof.
  intros LY LMo LD LH LMi LS.
  destruct Y as [| y1 [| y2 [| y3 [| y4 [| ? ?]]]]]; try discriminate LY.
  destruct Mo as [| m1 [| m2 [| ? ?]]]; try discriminate LMo.
  destruct D as [| d1 [| d2 [| ? ?]]]; try discriminate LD.
  destruct H as [| h1 [| h2 [| ? ?]]]; try discriminate LH.
  destruct Mi as [| i1 [| i2 [| ? ?]]]; try discriminate LMi.
  destruct S as [| s1 [| s2 [| ? ?]]]; try discriminate LS.
  cbv zeta. unfold Datetime.char_at, Datetime.slice.
  cbn [app nth_error skipn firstn Nat.sub].
  repeat split; reflexivity.
Qed.

Lemma check_fields_bounds (dt : Datetime.datetime) :
  Datetime.check_fields dt = true ->
  1 <= Datetime.year dt <= 9999 /\
  1 <= Datetime.month dt <= 12 /\
  1 <= Datetime.day dt
    <= Datetime.days_in_month (Datetime.year dt) (Datetime.month dt) /\
  0 <= Datetime.hour dt <= 23 /\
  0 <= Datetime.minute dt <= 59 /\
  0 <= Datetime.second dt <= 59 /\
  0 <= Datetime.microsecond dt <= 999999.
Proof.
  unfold Datetime.check_fields, Datetime.MAXYEAR. intros H.
  bool_to_prop. lia.
Qed.

Lemma days_in_month_bound (y m : Z) :
  1 <= m <= 12 -> 28 <= Datetime.days_in_month y m <= 31.
Proof.
  intros Hm. unfold Datetime.days_in_month.
  assert (Hcases : m = 1 \/ m = 2 \/ m = 3 \/ m = 4 \/ m = 5 \/ m = 6 \/
                   m = 7 \/ m = 8 \/ m = 9 \/ m = 10 \/ m = 11 \/ m = 12)
    by lia.
  destruct (Datetime.is_leap y);
    repeat (destruct Hcases as [-> | Hcases]; [vm_compute; split; discriminate |]);
    subst m; vm_compute; split; discriminate.
Qed.

(** Reading back what [isoformat] wrote gives the datetime written. *)
Lemma fromisoformat_isoformat (dt : Datetime.datetime) :
  Datetime.check_fields dt = true ->
  Datetime.fromisoformat (Datetime.isoformat dt) = Some dt.
Proof.
  intros Hok.
  pose proof (check_fields_bounds dt Hok) as [Hy [Hm [Hd [Hh [Hmi [Hs Hus]]]]]].
  pose proof (days_in_month_bound (Datetime.year dt) (Datetime.month dt) Hm)
    as Hdim.
  unfold Datetime.fromisoformat, Datetime.isoformat.
  rewrite list_ascii_of_string_of_list_ascii.
  match goal with
  | |- context [(_ ++ _ ++ _ ++ _ ++ _ ++ _ ++ _ ++ _ ++ _ ++ _ ++ _ ++ ?f)%list] =>
    destruct (iso_layout
                (PyStr.zero_padded 4 (Datetime.year dt))
                (PyStr.zero_padded 2 (Datetime.month dt))
                (PyStr.zero_padded 2 (Datetime.day dt))
                (PyStr.zero_padded 2 (Datetime.hour dt))
                (PyStr.zero_padded 2 (Datetime.minute dt))
                (PyStr.zero_padded 2 (Datetime.second dt))
                f
                (zero_padded_length _ _) (zero_padded_length _ _)
                (zero_padded_length _ _) (zero_padded_length _ _)
                (zero_padded_length _ _) (zero_padded_length _ _))
      as [C1 [C2 [C3 [C4 [C5 [S1 [S2 [S3 [S4 [S5 [S6 S7]]]]]]]]]]]
  end.
  rewrite C1, C2, C3, C4, C5, S1, S2, S3, S4, S5, S6, S7.
  cbn [andb].
  rewrite !parse_zero_padded
    by (try (cbn; lia); change (10 ^ Z.of_nat 4) with 10000;
        change (10 ^ Z.of_nat 2) with 100; lia).
  assert (Hfrac :
    Datetime.parse_fraction
      (if Datetime.microsecond dt =? 0 then []
       else ["."%char] ++ PyStr.zero_padded 6 (Datetime.microsecond dt))%list
    = Some (Datetime.microsecond dt)).
  { destruct (Z.eqb_spec (Datetime.microsecond dt) 0) as [E | E].
    - rewrite E. reflexivity.
    - cbn [app Datetime.parse_fraction].
      rewrite zero_padded_length. cbn [Ascii.eqb Bool.eqb Nat.eqb andb].
      apply parse_zero_padded; [lia |].
      change (10 ^ Z.of_nat 6) with 1000000. lia. }
  rewrite Hfrac.
  destruct dt as [y m d h mi s us]. cbn [Datetime.year Datetime.month
    Datetime.day Datetime.hour Datetime.minute Datetime.second
    Datetime.microsecond] in *.
  now rewrite Hok.
Qed.

(** ** Adding days *)

Lemma timedelta_new_normal (d s us : Z) :
  0 <= s < 86400 -> 0 <= us < 1000000 -> Z.abs d <= 999999999 ->
  Datetime.timedelta_new d s us = Return (Datetime.mk_timedelta d s us).
Proof.
  intros Hs Hus Hd. unfold Datetime.timedelta_new. cbv zeta.
  rewrite (Z.div_small us), (Z.mod_small us) by lia.
  rewrite Z.add_0_r.
  rewrite (Z.div_small s), (Z.mod_small s) by lia.
  rewrite Z.add_0_r.
  assert (Hlt : (999999999 <? Z.abs d) = false) by (apply Z.ltb_ge; lia).
  now rewrite Hlt.
Qed.

Lemma timedelta_new_overflow (d s us : Z) :
  0 <= s < 86400 -> 0 <= us < 1000000 -> 999999999 < Z.abs d ->
  exists msg,
    Datetime.timedelta_new d s us = Raise (Exception "OverflowError" msg).
Proof.
  intros Hs Hus Hd. unfold Datetime.timedelta_new. cbv zeta.
  rewrite (Z.div_small us), (Z.mod_small us) by lia.
  rewrite Z.add_0_r.
  rewrite (Z.div_small s), (Z.mod_small s) by lia.
  rewrite Z.add_0_r.
  assert (Hlt : (999999999 <? Z.abs d) = true) by (apply Z.ltb_lt; lia).
  rewrite Hlt. eexists. reflexivity.
Qed.

Lemma index_before_month_bound (m : Z) :
  1 <= m <= 12 -> 0 <= Datetime.index Datetime.DAYS_BEFORE_MONTH m <= 334.
Proof.
  intros Hm.
  assert (Hcases : m = 1 \/ m = 2 \/ m = 3 \/ m = 4 \/ m = 5 \/ m = 6 \/
                   m = 7 \/ m = 8 \/ m = 9 \/ m = 10 \/ m = 11 \/ m = 12)
    by lia.
  repeat (destruct Hcases as [-> | Hcases]; [vm_compute; split; discriminate |]).
  subst m; vm_compute; split; discriminate.
Qed.

(** The ordinal of a datetime the constructor accepts. *)
Lemma toordinal_bounds (dt : Datetime.datetime) :
  Datetime.check_fields dt = true ->
  1 <= Datetime.toordinal dt <= 4000000.
Proof.
  intros Hok.
  pose proof (check_fields_bounds dt Hok) as [Hy [Hm [Hd _]]].
  pose proof (days_in_month_bound (Datetime.year dt) (Datetime.month dt) Hm).
  pose proof (index_before_month_bound (Datetime.month dt) Hm).
  unfold Datetime.toordinal, Datetime.ymd2ord, Datetime.days_before_month,
    Datetime.days_before_year. cbv zeta.
  set (y := Datetime.year dt - 1).
  assert (Hy0 : 0 <= y <= 9998) by (unfold y; lia).
  pose proof (Z.div_mod y 4 ltac:(lia)).
  pose proof (Z.mod_pos_bound y 4 ltac:(lia)).
  pose proof (Z.div_mod y 100 ltac:(lia)).
  pose proof (Z.mod_pos_bound y 100 ltac:(lia)).
  pose proof (Z.div_mod y 400 ltac:(lia)).
  pose proof (Z.mod_pos_bound y 400 ltac:(lia)).
  destruct ((2 <? Datetime.month dt) && Datetime.is_leap (Datetime.year dt));
    lia.
Qed.




(** What [datetime + timedelta(days=d)] is, inside the range of dates. *)
Lemma expiry_in_range (now : Datetime.datetime) (d : Z) :
  Datetime.check_fields now = true ->
  0 < Datetime.toordinal now + d <= Datetime.MAXORDINAL ->
  expiry now d
    = Return (let '(y, m, dd) := Datetime.ord2ymd (Datetime.toordinal now + d) in
              Datetime.mk_datetime y m dd
                (Datetime.hour now) (Datetime.minute now)
                (Datetime.second now) (Datetime.microsecond now)).
Proof.
  intros Hok Hrange. unfold Datetime.MAXORDINAL in Hrange.
  pose proof (check_fields_bounds now Hok) as [_ [_ [_ [Hh [Hmi [Hs Hus]]]]]].
  pose proof (toordinal_bounds now Hok) as Hord.
  unfold expiry.
  rewrite (timedelta_new_normal d 0 0) by lia.
  unfold Datetime.add.
  rewrite timedelta_new_normal by lia.
  unfold Datetime.timedelta_add.
  cbn [Datetime.days Datetime.seconds Datetime.microseconds].
  rewrite !Z.add_0_r.
  rewrite timedelta_new_normal by lia.
  cbn [Datetime.days Datetime.seconds Datetime.microseconds].
  cbv zeta.
  assert (H1 : (0 <? Datetime.toordinal now + d) = true)
    by (apply Z.ltb_lt; lia).
  assert (H2 : (Datetime.toordinal now + d <=? Datetime.MAXORDINAL) = true)
    by (apply Z.leb_le; unfold Datetime.MAXORDINAL; lia).
  rewrite H1, H2. cbn [andb].
  set (secs := Datetime.hour now * 3600 + Datetime.minute now * 60 +
               Datetime.second now).
  assert (Hhour : secs / 3600 = Datetime.hour now).
  { symmetry.
    apply (Z.div_unique secs 3600 _
             (Datetime.minute now * 60 + Datetime.second now));
      unfold secs; lia. }
  assert (Hrem : secs mod 3600
                 = Datetime.minute now * 60 + Datetime.second now).
  { symmetry.
    apply (Z.mod_unique secs 3600 (Datetime.hour now));
      unfold secs; lia. }
  rewrite Hhour, Hrem.
  assert (Hmin : (Datetime.minute now * 60 + Datetime.second now) / 60
                 = Datetime.minute now).
  { symmetry.
    apply (Z.div_unique _ 60 _ (Datetime.second now)); lia. }
  assert (Hsec : (Datetime.minute now * 60 + Datetime.second now) mod 60
                 = Datetime.second now).
  { symmetry.
    apply (Z.mod_unique _ 60 (Datetime.minute now)); lia. }
  rewrite Hmin, Hsec.
  destruct (Datetime.ord2ymd (Datetime.toordinal now + d)) as [[y m] dd].
  reflexivity.
Qed.

(** Outside that range the addition raises [OverflowError]. *)
Lemma expiry_out_of_range (now : Datetime.datetime) (d : Z) :
  Datetime.check_fields now = true ->
  ~ (0 < Datetime.toordinal now + d <= Datetime.MAXORDINAL) ->
  exists msg, expiry now d = Raise (Exception "OverflowError" msg).
Proof.
  intros Hok Hrange. unfold Datetime.MAXORDINAL in Hrange.
  pose proof (check_fields_bounds now Hok) as [_ [_ [_ [Hh [Hmi [Hs Hus]]]]]].
  pose proof (toordinal_bounds now Hok) as Hord.
  unfold expiry.
  destruct (Z_le_gt_dec (Z.abs d) 999999999) as [Hd | Hd].
  2: { destruct (timedelta_new_overflow d 0 0) as [msg Hmsg]; try lia.
       rewrite Hmsg. now exists msg. }
  rewrite (timedelta_new_normal d 0 0) by lia.
  unfold Datetime.add.
  rewrite timedelta_new_normal by lia.
  unfold Datetime.timedelta_add.
  cbn [Datetime.days Datetime.seconds Datetime.microseconds].
  rewrite !Z.add_0_r.
  destruct (Z_le_gt_dec (Z.abs (Datetime.toordinal now + d)) 999999999)
    as [Hsum | Hsum].
  2: { destruct (timedelta_new_overflow (Datetime.toordinal now + d)
                   (Datetime.hour now * 3600 + Datetime.minute now * 60 +
                    Datetime.second now)
                   (Datetime.microsecond now)) as [msg Hmsg]; try lia.
       rewrite Hmsg. now exists msg. }
  rewrite timedelta_new_normal by lia.
  cbn [Datetime.days Datetime.seconds Datetime.microseconds].
  cbv zeta.
  destruct (0 <? Datetime.toordinal now + d) eqn:H1;
    destruct (Datetime.toordinal now + d <=? Datetime.MAXORDINAL) eqn:H2;
    cbn [andb]; try (eexists; reflexivity).
  apply Z.ltb_lt in H1. apply Z.leb_le in H2.
  unfold Datetime.MAXORDINAL in H2. lia.
Qed.

Lemma check_fields_intro (dt : Datetime.datetime) :
  1 <= Datetime.year dt <= 9999 ->
  1 <= Datetime.month dt <= 12 ->
  1 <= Datetime.day dt
    <= Datetime.days_in_month (Datetime.year dt) (Datetime.month dt) ->
  0 <= Datetime.hour dt <= 23 ->
  0 <= Datetime.minute dt <= 59 ->
  0 <= Datetime.second dt <= 59 ->
  0 <= Datetime.microsecond dt <= 999999 ->
  Datetime.check_fields dt = true.
Proof.
  intros Hy Hm Hd Hh Hmi Hs Hus.
  unfold Datetime.check_fields, Datetime.MAXYEAR.
  repeat (apply andb_true_iff; split); apply Z.leb_le; lia.
Qed.

(** What the expiration calculator returns, when it returns: a valid
    datetime, [d] days on in the ordinal count, at the same time of
    day. *)
Lemma expiry_returns (now ex : Datetime.datetime) (d : Z) :
  Datetime.check_fields now = true ->
  expiry now d = Return ex ->
  0 < Datetime.toordinal now + d <= Datetime.MAXORDINAL /\
  Datetime.check_fields ex = true /\
  Datetime.toordinal ex = Datetime.toordinal now + d /\
  Datetime.instant ex
    = Datetime.instant now + d * Datetime.MICROSECONDS_PER_DAY.
Proof.
  intros Hok Hex.
  assert (Hrange : 0 < Datetime.toordinal now + d <= Datetime.MAXORDINAL).
  { destruct (Z_lt_dec 0 (Datetime.toordinal now + d)) as [H1 | H1];
      destruct (Z_le_dec (Datetime.toordinal now + d) Datetime.MAXORDINAL)
        as [H2 | H2]; try (split; assumption);
      destruct (expiry_out_of_range now d Hok) as [msg Hmsg];
      try (intros [? ?]; contradiction);
      rewrite Hmsg in Hex; discriminate Hex. }
  split; [exact Hrange |].
  rewrite (expiry_in_range now d Hok Hrange) in Hex.
  pose proof (ord2ymd_correct (Datetime.toordinal now + d) ltac:(lia)) as Hymd.
  destruct (Datetime.ord2ymd (Datetime.toordinal now + d)) as [[y m] dd].
  destruct Hymd as [Hord [Hm [Hd [Hy1 Hy2]]]].
  injection Hex as <-.
  pose proof (check_fields_bounds now Hok) as [_ [_ [_ [Hh [Hmi [Hs Hus]]]]]].
  assert (Hto : Datetime.toordinal
                  (Datetime.mk_datetime y m dd (Datetime.hour now)
                     (Datetime.minute now) (Datetime.second now)
                     (Datetime.microsecond now))
                = Datetime.toordinal now + d) by exact Hord.
  split; [| split].
  - apply check_fields_intro;
      cbn [Datetime.year Datetime.month Datetime.day Datetime.hour
           Datetime.minute Datetime.second Datetime.microsecond];
      try lia.
    split; [lia |]. apply Hy2. apply Hrange.
  - exact Hto.
  - unfold Datetime.instant. rewrite Hto.
    cbn [Datetime.hour Datetime.minute Datetime.second Datetime.microsecond].
    unfold Datetime.MICROSECONDS_PER_DAY. lia.
Qed.

(** ** The expiration *)

(** C6, as the code has it.  For a positive number of days that keeps
    the result within the dates [datetime] has (up to 9999-12-31), the
    expiration calculator returns the datetime exactly that many days
    after the clock reading, and the ISO-8601 string written for it
    reads back as that same datetime. *)
Theorem expiry_is_days_later_and_reads_back :
  forall (now : Datetime.datetime) (d : Z),
    Datetime.check_fields now = true ->
    0 < d ->
    Datetime.toordinal now + d <= Datetime.MAXORDINAL ->
    exists ex : Datetime.datetime,
      expiry now d = Return ex /\
      Datetime.instant ex
        = Datetime.instant now + d * Datetime.MICROSECONDS_PER_DAY /\
      Datetime.fromisoformat (Datetime.isoformat ex) = Some ex.
Proof.
  intros now d Hok Hd Hmax.
  pose proof (toordinal_bounds now Hok) as Hord.
  assert (Hrange : 0 < Datetime.toordinal now + d <= Datetime.MAXORDINAL)
    by lia.
  eexists. split; [apply (expiry_in_range now d Hok Hrange) |].
  destruct (expiry_returns now _ d Hok (expiry_in_range now d Hok Hrange))
    as [_ [Hvalid [_ Hinst]]].
  split; [exact Hinst |].
  now apply fromisoformat_isoformat.
Qed.

Lemma expiry_is_days_later_and_reads_back_witness :
  exists ex : Datetime.datetime,
    expiry Sample.clock 30 = Return ex /\
    Datetime.instant ex
      = Datetime.instant Sample.clock + 30 * Datetime.MICROSECONDS_PER_DAY /\
    Datetime.fromisoformat (Datetime.isoformat ex) = Some ex.
Proof.
  apply (expiry_is_days_later_and_reads_back Sample.clock 30).
  - reflexivity.
  - lia.
  - vm_compute. discriminate.
Defined.

(** The claim C6 as the specification states it fails on the code: for
    the positive number of days 3000000 nothing is computed, the
    addition raises. *)
Lemma expiry_overflows_for_large_days :
  Datetime.check_fields Sample.clock = true /\
  0 < 3000000 /\
  expiry Sample.clock 3000000
    = Raise (Exception "OverflowError" "date value out of range").
Proof.
  repeat split; vm_compute; reflexivity.
Qed.




(** * Further properties of the script *)

Lemma html_body_around_key (license_key : string) :
  html_body license_key
    = html_before_key ++ license_key ++ html_after_key.
Proof. reflexivity. Qed.

(** ** Credentials that are set but empty *)

(** X1.  A store credential that is set to the empty string counts as
    missing: the run prints the two ERROR lines and returns, and no
    request is sent. *)
Theorem empty_store_key_counts_as_missing :
  forall (env : Env) (email : string) (days_valid : Z),
    SUPABASE_SERVICE_KEY env = Some "" ->
    run (create_license email days_valid) env
      = (Return PyNone,
         [Printed "ERROR: PROJECTOR_SUPABASE_SERVICE_KEY environment variable is not set.";
          Printed "Please grab the 'service_role' secret from Supabase Dashboard > Settings > API."]) /\
    requests_of (snd (run (create_license email days_valid) env)) = [].
Proof.
  intros env email days Hempty.
  assert (Hk : truthy (SUPABASE_SERVICE_KEY env) = false)
    by (rewrite Hempty; reflexivity).
  issue_cases env email days; try congruence.
  split; reflexivity.
Qed.

Lemma empty_store_key_counts_as_missing_witness :
  run (create_license Sample.email 365)
      (Sample.env (Some "") Sample.api_key Sample.created Sample.sent)
    = (Return PyNone,
       [Printed "ERROR: PROJECTOR_SUPABASE_SERVICE_KEY environment variable is not set.";
        Printed "Please grab the 'service_role' secret from Supabase Dashboard > Settings > API."]) /\
  requests_of
    (snd (run (create_license Sample.email 365)
            (Sample.env (Some "") Sample.api_key Sample.created Sample.sent)))
    = [].
Proof.
  apply (empty_store_key_counts_as_missing
           (Sample.env (Some "") Sample.api_key Sample.created Sample.sent)
           Sample.email 365).
  reflexivity.
Defined.

(** X2.  Called without a usable mail credential (unset, or set to the
    empty string), [send_email] sends nothing: it prints the warning
    and the line that names the key and the recipient for manual
    delivery, and returns. *)
Theorem send_email_without_key_asks_for_manual_delivery :
  forall (env : Env) (to_email license_key : string),
    RESEND_API_KEY env = None \/ RESEND_API_KEY env = Some "" ->
    run (send_email to_email license_key) env
      = (Return PyNone,
         [Entered_send_email to_email license_key;
          Printed "WARNING: RESEND_API_KEY not found. Skipping email.";
          Printed ("Please manually send key " ++ license_key ++
                   " to " ++ to_email)]) /\
    requests_of (snd (run (send_email to_email license_key) env)) = [].
Proof.
  intros env to_email license_key Hkey.
  assert (Hk : truthy (RESEND_API_KEY env) = false)
    by (destruct Hkey as [-> | ->]; reflexivity).
  destruct (run_send_email env to_email license_key) as [o [evs [Hrun Hpath]]].
  rewrite Hrun. cbn [snd].
  inversion Hpath; subst; try congruence.
  split; reflexivity.
Qed.

Lemma send_email_without_key_asks_for_manual_delivery_witness :
  run (send_email Sample.email Sample.key)
      (Sample.env Sample.service_key (Some "") Sample.created Sample.sent)
    = (Return PyNone,
       [Entered_send_email Sample.email Sample.key;
        Printed "WARNING: RESEND_API_KEY not found. Skipping email.";
        Printed ("Please manually send key " ++ Sample.key ++
                 " to " ++ Sample.email)]) /\
  requests_of
    (snd (run (send_email Sample.email Sample.key)
            (Sample.env Sample.service_key (Some "")
               Sample.created Sample.sent))) = [].
Proof.
  apply (send_email_without_key_asks_for_manual_delivery
           (Sample.env Sample.service_key (Some "") Sample.created Sample.sent)
           Sample.email Sample.key).
  right. reflexivity.
Defined.

(** ** What [send_email] does on its own *)

(** X3.  However the mail provider behaves, [send_email] never ends in
    an exception of class [Exception], is entered once, prints at least
    one line, and sends at most one request; that request goes to the
    mail endpoint, from the fixed sender to the given recipient, with
    the key inside the message body. *)
Theorem send_email_contract :
  forall (env : Env) (to_email license_key : string),
    (forall cls msg,
       fst (run (send_email to_email license_key) env)
         <> Raise (Exception cls msg)) /\
    send_email_calls (snd (run (send_email to_email license_key) env))
      = [(to_email, license_key)] /\
    printed (snd (run (send_email to_email license_key) env)) <> [] /\
    (requests_of (snd (run (send_email to_email license_key) env)) = [] \/
     exists rq,
       requests_of (snd (run (send_email to_email license_key) env)) = [rq] /\
       url rq = EMAIL_ENDPOINT /\
       lookup "from" (json rq) = Some FROM_EMAIL /\
       lookup "to" (json rq) = Some to_email /\
       lookup "subject" (json rq) = Some "Your Creenly License Key" /\
       exists before after_key,
         lookup "html" (json rq)
           = Some (before ++ license_key ++ after_key)).
Proof.
  intros env to_email license_key.
  destruct (run_send_email env to_email license_key) as [o [evs [Hrun Hpath]]].
  rewrite Hrun. cbn [fst snd].
  assert (Hrq : forall rq,
             rq = mail_request (RESEND_API_KEY env) to_email license_key ->
             url rq = EMAIL_ENDPOINT /\
             lookup "from" (json rq) = Some FROM_EMAIL /\
             lookup "to" (json rq) = Some to_email /\
             lookup "subject" (json rq) = Some "Your Creenly License Key" /\
             exists before after_key,
               lookup "html" (json rq)
                 = Some (before ++ license_key ++ after_key)).
  { intros rq ->. repeat (split; [reflexivity |]).
    exists html_before_key, html_after_key.
    unfold mail_request; cbn [json]. rewrite html_body_around_key.
    reflexivity. }
  inversion Hpath; subst; cbn [send_email_calls printed requests_of];
    (split; [intros cls msg Hraise; try discriminate Hraise |]);
    try (injection Hraise as ->; discriminate);
    (split; [reflexivity |]); (split; [discriminate |]);
    try (left; reflexivity);
    right; eexists; (split; [reflexivity |]); apply Hrq; reflexivity.
Qed.

(** ** Requests: how many, in which order, with what *)

(** X4.  No run of [create_license] tries a request twice: it sends
    nothing, or one insert to the store, or that insert followed by one
    request to the mail provider. *)
Theorem at_most_one_request_per_endpoint :
  forall (env : Env) (email : string) (days_valid : Z),
    match requests_of (snd (run (create_license email days_valid) env)) with
    | [] => True
    | [s] => url s = STORE_ENDPOINT
    | [s; m] => url s = STORE_ENDPOINT /\ url m = EMAIL_ENDPOINT
    | _ => False
    end.
Proof.
  intros env email days.
  issue_cases env email days; cbn [requests_of app]; auto.
Qed.

(** X5.  A request goes to the mail provider only for a record the
    store has accepted: whenever the trace of [create_license] holds a
    request to the mail endpoint, it holds before it the insert of the
    record with the same email and key, and the store answered that
    insert with 200 or 201. *)
Theorem mail_only_after_accepted_insert :
  forall (env : Env) (email : string) (days_valid : Z) (m : Request),
    In (Posted m) (snd (run (create_license email days_valid) env)) ->
    url m = EMAIL_ENDPOINT ->
    exists (s : Request) (resp : Response) (key : string),
      requests_of (snd (run (create_license email days_valid) env)) = [s; m] /\
      url s = STORE_ENDPOINT /\
      network env s = Return resp /\
      (status_code resp = 200 \/ status_code resp = 201) /\
      lookup "license_key" (json s) = Some key /\
      lookup "email" (json s) = Some email /\
      m = mail_request (RESEND_API_KEY env) email key.
Proof.
  intros env email days m Hin Hurl.
  issue_cases env email days; pick_request Hin;
    try wrong_endpoint;
    eexists; eexists; exists key;
    (split; [reflexivity |]); (split; [reflexivity |]);
    (split; [eassumption |]);
    (split; [now apply accepted_iff |]);
    repeat split.
Qed.

Lemma mail_only_after_accepted_insert_witness :
  exists (s : Request) (resp : Response) (key : string),
    requests_of
      (snd (run (create_license Sample.email 30)
              (Sample.env Sample.service_key Sample.api_key
                 Sample.created Sample.sent))) = [s; Sample.mail_rq] /\
    url s = STORE_ENDPOINT /\
    network (Sample.env Sample.service_key Sample.api_key
               Sample.created Sample.sent) s = Return resp /\
    (status_code resp = 200 \/ status_code resp = 201) /\
    lookup "license_key" (json s) = Some key /\
    lookup "email" (json s) = Some Sample.email /\
    Sample.mail_rq
      = mail_request
          (RESEND_API_KEY (Sample.env Sample.service_key Sample.api_key
                             Sample.created Sample.sent))
          Sample.email key.
Proof.
  apply (mail_only_after_accepted_insert
           (Sample.env Sample.service_key Sample.api_key
              Sample.created Sample.sent)
           Sample.email 30 Sample.mail_rq).
  - vm_compute. do 7 right. left. reflexivity.
  - reflexivity.
Defined.

(** X6.  Every insert sent to the store is made with a credential that
    is set and not empty, carried both as [apikey] and as bearer token,
    asks for a minimal response, and holds a record with the caller's
    email and the status [active]. *)
Theorem store_request_shape :
  forall (env : Env) (email : string) (days_valid : Z) (rq : Request),
    In (Posted rq) (snd (run (create_license email days_valid) env)) ->
    url rq = STORE_ENDPOINT ->
    exists service_key : string,
      SUPABASE_SERVICE_KEY env = Some service_key /\
      service_key <> "" /\
      lookup "apikey" (headers rq) = Some service_key /\
      lookup "Authorization" (headers rq) = Some ("Bearer " ++ service_key) /\
      lookup "Content-Type" (headers rq) = Some "application/json" /\
      lookup "Prefer" (headers rq) = Some "return=minimal" /\
      lookup "email" (json rq) = Some email /\
      lookup "status" (json rq) = Some "active" /\
      map fst (json rq)
        = ["license_key"; "email"; "status"; "current_period_end"].
Proof.
  intros env email days rq Hin Hurl.
  assert (Hkey : truthy (SUPABASE_SERVICE_KEY env) = true ->
                 exists service_key,
                   SUPABASE_SERVICE_KEY env = Some service_key /\
                   service_key <> "").
  { destruct (SUPABASE_SERVICE_KEY env) as [k |]; cbn [truthy];
      [| discriminate].
    intros Hk. exists k. split; [reflexivity |].
    intros ->. discriminate Hk. }
  issue_cases env email days; pick_request Hin; try wrong_endpoint;
    match goal with
    | H : truthy (SUPABASE_SERVICE_KEY env) = true |- _ =>
      destruct (Hkey H) as [k [Ek Hne]]
    end;
    exists k; rewrite Ek; repeat split; assumption.
Qed.

Lemma store_request_shape_witness :
  exists service_key : string,
    SUPABASE_SERVICE_KEY
      (Sample.env Sample.service_key Sample.api_key
         Sample.conflict Sample.sent) = Some service_key /\
    service_key <> "" /\
    lookup "apikey" (headers Sample.store_rq) = Some service_key /\
    lookup "Authorization" (headers Sample.store_rq)
      = Some ("Bearer " ++ service_key) /\
    lookup "Content-Type" (headers Sample.store_rq) = Some "application/json" /\
    lookup "Prefer" (headers Sample.store_rq) = Some "return=minimal" /\
    lookup "email" (json Sample.store_rq) = Some Sample.email /\
    lookup "status" (json Sample.store_rq) = Some "active" /\
    map fst (json Sample.store_rq)
      = ["license_key"; "email"; "status"; "current_period_end"].
Proof.
  apply (store_request_shape
           (Sample.env Sample.service_key Sample.api_key
              Sample.conflict Sample.sent)
           Sample.email 30 Sample.store_rq).
  - vm_compute. right. left. reflexivity.
  - reflexivity.
Defined.

(** What [generate_license_key_groups] says of the key, as a match. *)
Lemma groups_match_pattern (g1 g2 g3 : list ascii) :
  (List.length g1 = 4)%nat -> (List.length g2 = 4)%nat ->
  (List.length g3 = 4)%nat ->
  Forall (fun c => Re.Matches upper_or_digit (String c "")) (g1 ++ g2 ++ g3) ->
  Re.fullmatch license_key_pattern
    ("PRO-" ++ string_of_list_ascii g1 ++ "-" ++
     string_of_list_ascii g2 ++ "-" ++ string_of_list_ascii g3) = true.
Proof.
  intros L1 L2 L3 Hall.
  apply Forall_app in Hall as [F1 Hall].
  apply Forall_app in Hall as [F2 F3].
  apply fullmatch_complete. unfold license_key_pattern.
  apply Re.MSeq; [apply matches_lit |].
  apply Re.MSeq; [rewrite <- L1; now apply matches_times |].
  apply Re.MSeq; [constructor |].
  apply Re.MSeq; [rewrite <- L2; now apply matches_times |].
  apply Re.MSeq; [constructor |].
  rewrite <- L3. now apply matches_times.
Qed.

(** X7.  The key of every record sent to the store has the license
    format: with a generator whose outputs lie in [[0, 1)], the
    [license_key] field of every insert matches
    [^PRO-[A-Z0-9]{4}-[A-Z0-9]{4}-[A-Z0-9]{4}$], and it is the key made
    from the first twelve outputs of the generator. *)
Theorem posted_key_has_license_format :
  forall (env : Env) (email : string) (days_valid : Z) (rq : Request),
    random_ok env ->
    In (Posted rq) (snd (run (create_license email days_valid) env)) ->
    url rq = STORE_ENDPOINT ->
    exists (key : string) (st' : State),
      lookup "license_key" (json rq) = Some key /\
      generate_license_key env initial = (Return key, st') /\
      drawn st' = 12%nat /\
      Re.fullmatch license_key_pattern key = true.
Proof.
  intros env email days rq Hrand Hin Hurl.
  destruct (generate_license_key_groups env initial Hrand)
    as [g1 [g2 [g3 [Hgen [[L1 [L2 L3]] Hall]]]]].
  pose proof (groups_match_pattern g1 g2 g3 L1 L2 L3 Hall) as Hmatch.
  issue_cases env email days; pick_request Hin; try wrong_endpoint;
    match goal with
    | H : generate_license_key env initial = (Return ?k, ?s) |- _ =>
      exists k, s;
      pose proof H as Hsame; rewrite Hgen in Hsame;
      injection Hsame as Ek Es;
      split; [reflexivity |];
      split; [exact H |];
      split; [rewrite <- Es; reflexivity | rewrite <- Ek; exact Hmatch]
    end.
Qed.

Lemma posted_key_has_license_format_witness :
  exists (key : string) (st' : State),
    lookup "license_key" (json Sample.store_rq) = Some key /\
    generate_license_key
      (Sample.env Sample.service_key Sample.api_key Sample.created Sample.sent)
      initial = (Return key, st') /\
    drawn st' = 12%nat /\
    Re.fullmatch license_key_pattern key = true.
Proof.
  apply (posted_key_has_license_format
           (Sample.env Sample.service_key Sample.api_key
              Sample.created Sample.sent)
           Sample.email 30 Sample.store_rq).
  - intros i. unfold Sample.env, Sample.random53; cbn [random53].
    apply Z.mod_pos_bound. reflexivity.
  - vm_compute. right. left. reflexivity.
  - reflexivity.
Defined.

(** ** The other ends of the success path *)

(** X8.  When the store accepts the insert and the mail provider
    answers 200, the run is the whole success path: the announcement,
    the insert, the three success lines, then inside [send_email] the
    one request to the provider and the line that the mail was sent;
    [create_license] returns [None]. *)
Theorem full_success_path :
  forall (env : Env) (email : string) (days_valid : Z)
         (rq : Request) (resp : Response),
    In (Posted rq) (snd (run (create_license email days_valid) env)) ->
    url rq = STORE_ENDPOINT ->
    network env rq = Return resp ->
    status_code resp = 200 \/ status_code resp = 201 ->
    truthy (RESEND_API_KEY env) = true ->
    exists key expires_at : string,
      lookup "license_key" (json rq) = Some key /\
      lookup "current_period_end" (json rq) = Some expires_at /\
      forall mresp : Response,
        network env (mail_request (RESEND_API_KEY env) email key)
          = Return mresp ->
        status_code mresp = 200 ->
        run (create_license email days_valid) env
          = (Return PyNone,
             [Printed ("Creating license for " ++ email ++ "...");
              Posted rq;
              Printed "SUCCESS: License Created!";
              Printed ("Key: " ++ key);
              Printed ("Expires: " ++ expires_at);
              Entered_send_email email key;
              Printed "Sending email via Resend...";
              Posted (mail_request (RESEND_API_KEY env) email key);
              Printed "Email sent successfully!"]).
Proof.
  intros env email days rq resp Hin Hurl Hnet Hok Hmail.
  apply accepted_iff in Hok.
  issue_cases env email days; pick_request Hin;
    try wrong_endpoint; same_answer; try congruence;
    exists key, (Datetime.isoformat expires);
    (split; [reflexivity |]); (split; [reflexivity |]);
    intros mresp Hm H200; try congruence.
  same_answer.
  apply Z.eqb_eq in H200. rewrite H200. reflexivity.
Qed.

Lemma full_success_path_witness :
  let env := Sample.env Sample.service_key Sample.api_key
               Sample.created Sample.sent in
  exists key expires_at : string,
    lookup "license_key" (json Sample.store_rq) = Some key /\
    lookup "current_period_end" (json Sample.store_rq) = Some expires_at /\
    forall mresp : Response,
      network env (mail_request (RESEND_API_KEY env) Sample.email key)
        = Return mresp ->
      status_code mresp = 200 ->
      run (create_license Sample.email 30) env
        = (Return PyNone,
           [Printed ("Creating license for " ++ Sample.email ++ "...");
            Posted Sample.store_rq;
            Printed "SUCCESS: License Created!";
            Printed ("Key: " ++ key);
            Printed ("Expires: " ++ expires_at);
            Entered_send_email Sample.email key;
            Printed "Sending email via Resend...";
            Posted (mail_request (RESEND_API_KEY env) Sample.email key);
            Printed "Email sent successfully!"]).
Proof.
  intros env.
  apply (full_success_path env Sample.email 30 Sample.store_rq
           (mk_response 201 "")).
  - vm_compute. right. left. reflexivity.
  - reflexivity.
  - reflexivity.
  - right. reflexivity.
  - reflexivity.
Defined.

(** X9.  The handler of [send_email] is [except Exception]: what the
    request to the mail provider raises outside that class (an exit
    request, for one) is not caught.  It leaves [send_email] and
    [create_license] as raised, after the insert was accepted and the
    success lines were printed, and no mail line follows. *)
Theorem base_exception_escapes_send_email :
  forall (env : Env) (email : string) (days_valid : Z)
         (rq : Request) (resp : Response),
    In (Posted rq) (snd (run (create_license email days_valid) env)) ->
    url rq = STORE_ENDPOINT ->
    network env rq = Return resp ->
    status_code resp = 200 \/ status_code resp = 201 ->
    truthy (RESEND_API_KEY env) = true ->
    exists key expires_at : string,
      lookup "license_key" (json rq) = Some key /\
      lookup "current_period_end" (json rq) = Some expires_at /\
      forall e : PyExc,
        network env (mail_request (RESEND_API_KEY env) email key) = Raise e ->
        is_Exception e = false ->
        run (create_license email days_valid) env
          = (Raise e,
             [Printed ("Creating license for " ++ email ++ "...");
              Posted rq;
              Printed "SUCCESS: License Created!";
              Printed ("Key: " ++ key);
              Printed ("Expires: " ++ expires_at);
              Entered_send_email email key;
              Printed "Sending email via Resend...";
              Posted (mail_request (RESEND_API_KEY env) email key)]).
Proof.
  intros env email days rq resp Hin Hurl Hnet Hok Hmail.
  apply accepted_iff in Hok.
  issue_cases env email days; pick_request Hin;
    try wrong_endpoint; same_answer; try congruence;
    exists key, (Datetime.isoformat expires);
    (split; [reflexivity |]); (split; [reflexivity |]);
    intros e0 Hm He; try congruence.
  assert (e0 = e) by congruence. subst e0. reflexivity.
Qed.

Lemma base_exception_escapes_send_email_witness :
  let env := Sample.env Sample.service_key Sample.api_key
               Sample.created (Raise (SystemExit 130)) in
  exists key expires_at : string,
    lookup "license_key" (json Sample.store_rq) = Some key /\
    lookup "current_period_end" (json Sample.store_rq) = Some expires_at /\
    forall e : PyExc,
      network env (mail_request (RESEND_API_KEY env) Sample.email key)
        = Raise e ->
      is_Exception e = false ->
      run (create_license Sample.email 30) env
        = (Raise e,
           [Printed ("Creating license for " ++ Sample.email ++ "...");
            Posted Sample.store_rq;
            Printed "SUCCESS: License Created!";
            Printed ("Key: " ++ key);
            Printed ("Expires: " ++ expires_at);
            Entered_send_email Sample.email key;
            Printed "Sending email via Resend...";
            Posted (mail_request (RESEND_API_KEY env) Sample.email key)]).
Proof.
  intros env.
  apply (base_exception_escapes_send_email env Sample.email 30
           Sample.store_rq (mk_response 201 "")).
  - vm_compute. right. left. reflexivity.
  - reflexivity.
  - reflexivity.
  - right. reflexivity.
  - reflexivity.
Defined.

(** ** The expiration inside [create_license] *)



(** X11.  Nothing about the email is checked: with the store credential
    set, a generator whose outputs lie in [[0, 1)] and an expiration that
    fits the dates [datetime] has, [create_license] announces the email
    as given and sends the insert for it, whatever the string is. *)
Theorem insert_is_sent_for_any_email :
  forall (env : Env) (email : string) (days_valid : Z),
    truthy (SUPABASE_SERVICE_KEY env) = true ->
    random_ok env ->
    Datetime.check_fields (clock env) = true ->
    0 < Datetime.toordinal (clock env) + days_valid <= Datetime.MAXORDINAL ->
    exists (key : string) (ex : Datetime.datetime) (rest : list Event),
      expiry (clock env) days_valid = Return ex /\
      snd (run (create_license email days_valid) env)
        = Printed ("Creating license for " ++ email ++ "...")
          :: Posted (store_request (SUPABASE_SERVICE_KEY env) key email
                       (Datetime.isoformat ex))
          :: rest.
Proof.
  intros env email days Hkey Hrand Hok Hrange.
  pose proof (expiry_in_range (clock env) days Hok Hrange) as Hex.
  destruct (generate_license_key_groups env initial Hrand)
    as [g1 [g2 [g3 [Hgen _]]]].
  issue_cases env email days; try congruence;
    exists key, expires; eexists; (split; [assumption |]); reflexivity.
Qed.

Lemma insert_is_sent_for_any_email_witness :
  exists (key : string) (ex : Datetime.datetime) (rest : list Event),
    expiry Sample.clock 30 = Return ex /\
    snd (run (create_license "" 30)
           (Sample.env Sample.service_key Sample.api_key
              Sample.created Sample.sent))
      = Printed ("Creating license for " ++ "" ++ "...")
        :: Posted (store_request Sample.service_key key ""
                     (Datetime.isoformat ex))
        :: rest.
Proof.
  apply (insert_is_sent_for_any_email
           (Sample.env Sample.service_key Sample.api_key
              Sample.created Sample.sent)
           "" 30).
  - reflexivity.
  - intros i. unfold Sample.env, Sample.random53; cbn [random53].
    apply Z.mod_pos_bound. reflexivity.
  - reflexivity.
  - vm_compute. split; [reflexivity | discriminate].
Defined.

Lemma string_of_list_ascii_length (cs : list ascii) :
  String.length (string_of_list_ascii cs) = List.length cs.
Proof.
  induction cs as [| c cs IH]; cbn [string_of_list_ascii String.length List.length].
  - reflexivity.
  - now rewrite IH.
Qed.

(** [isoformat] writes 19 characters, and 7 more for the fraction. *)
Lemma isoformat_length (dt : Datetime.datetime) :
  String.length (Datetime.isoformat dt)
    = if Datetime.microsecond dt =? 0 then 19%nat else 26%nat.
Proof.
  unfold Datetime.isoformat.
  rewrite string_of_list_ascii_length.
  rewrite !length_app, !zero_padded_length.
  destruct (Datetime.microsecond dt =? 0).
  - reflexivity.
  - rewrite length_app, zero_padded_length. reflexivity.
Qed.

(** Adding days leaves the time of day alone. *)
Lemma expiry_keeps_time_of_day (now ex : Datetime.datetime) (d : Z) :
  Datetime.check_fields now = true ->
  expiry now d = Return ex ->
  Datetime.hour ex = Datetime.hour now /\
  Datetime.minute ex = Datetime.minute now /\
  Datetime.second ex = Datetime.second now /\
  Datetime.microsecond ex = Datetime.microsecond now.
Proof.
  intros Hok Hex.
  destruct (expiry_returns now ex d Hok Hex) as [Hrange _].
  rewrite (expiry_in_range now d Hok Hrange) in Hex.
  destruct (Datetime.ord2ymd (Datetime.toordinal now + d)) as [[y m] dd].
  injection Hex as <-. repeat split.
Qed.

(** X12.  The expiration written into a record keeps the time of day
    of the clock reading, down to the microsecond, and its text is the
    bare date and time: 19 characters when the clock's microsecond is
    0, 26 with the six-digit fraction otherwise, so no UTC offset or
    [Z] is ever written. *)
Theorem expiration_text_shape :
  forall (env : Env) (email : string) (days_valid : Z) (rq : Request),
    Datetime.check_fields (clock env) = true ->
    In (Posted rq) (snd (run (create_license email days_valid) env)) ->
    url rq = STORE_ENDPOINT ->
    exists ex : Datetime.datetime,
      lookup "current_period_end" (json rq) = Some (Datetime.isoformat ex) /\
      Datetime.hour ex = Datetime.hour (clock env) /\
      Datetime.minute ex = Datetime.minute (clock env) /\
      Datetime.second ex = Datetime.second (clock env) /\
      Datetime.microsecond ex = Datetime.microsecond (clock env) /\
      String.length (Datetime.isoformat ex)
        = if Datetime.microsecond (clock env) =? 0 then 19%nat else 26%nat.
Proof.
  intros env email days rq Hok Hin Hurl.
  issue_cases env email days; pick_request Hin; try wrong_endpoint;
    match goal with
    | H : expiry (clock env) days = Return ?ex |- _ =>
      destruct (expiry_keeps_time_of_day (clock env) ex days Hok H)
        as [Hh [Hm [Hs Hus]]];
      exists ex; rewrite isoformat_length, Hus; repeat split; assumption
    end.
Qed.

Lemma expiration_text_shape_witness :
  exists ex : Datetime.datetime,
    lookup "current_period_end" (json Sample.store_rq)
      = Some (Datetime.isoformat ex) /\
    Datetime.hour ex = Datetime.hour Sample.clock /\
    Datetime.minute ex = Datetime.minute Sample.clock /\
    Datetime.second ex = Datetime.second Sample.clock /\
    Datetime.microsecond ex = Datetime.microsecond Sample.clock /\
    String.length (Datetime.isoformat ex)
      = if Datetime.microsecond Sample.clock =? 0 then 19%nat else 26%nat.
Proof.
  apply (expiration_text_shape
           (Sample.env Sample.service_key Sample.api_key
              Sample.conflict Sample.sent)
           Sample.email 30 Sample.store_rq).
  - reflexivity.
  - vm_compute. right. left. reflexivity.
  - reflexivity.
Defined.

(** X13.  Extending an expiration is adding the days up: the
    expiration computed [d2] days after an expiration that was computed
    [d1] days after a clock reading is the one computed [d1 + d2] days
    after that reading. *)
Theorem expiry_adds_up :
  forall (now ex1 ex2 : Datetime.datetime) (d1 d2 : Z),
    Datetime.check_fields now = true ->
    expiry now d1 = Return ex1 ->
    expiry ex1 d2 = Return ex2 ->
    expiry now (d1 + d2) = Return ex2.
Proof.
  intros now ex1 ex2 d1 d2 Hok H1 H2.
  destruct (expiry_returns now ex1 d1 Hok H1) as [_ [Hok1 [Hord1 _]]].
  destruct (expiry_keeps_time_of_day now ex1 d1 Hok H1)
    as [Hh [Hm [Hs Hus]]].
  destruct (expiry_returns ex1 ex2 d2 Hok1 H2) as [Hrange2 _].
  rewrite (expiry_in_range ex1 d2 Hok1 Hrange2) in H2.
  assert (Hrange : 0 < Datetime.toordinal now + (d1 + d2)
                     <= Datetime.MAXORDINAL) by lia.
  rewrite (expiry_in_range now (d1 + d2) Hok Hrange).
  rewrite <- H2.
  replace (Datetime.toordinal now + (d1 + d2))
    with (Datetime.toordinal ex1 + d2) by lia.
  now rewrite Hh, Hm, Hs, Hus.
Qed.

Lemma expiry_adds_up_witness :
  expiry Sample.clock (30 + 335)
    = Return (Datetime.mk_datetime 2025 2 28 13 5 9 45).
Proof.
  apply (expiry_adds_up Sample.clock
           (Datetime.mk_datetime 2024 3 30 13 5 9 45)
           (Datetime.mk_datetime 2025 2 28 13 5 9 45) 30 335).
  - reflexivity.
  - vm_compute. reflexivity.
  - vm_compute. reflexivity.
Defined.

(** ** The key generator and the random source *)

(** X14.  The key generator touches nothing but the random source: it
    prints nothing and sends nothing, whatever the generator returns;
    and with outputs in [[0, 1)] it returns after exactly twelve of
    them. *)
Theorem key_generator_effects :
  forall (env : Env) (st : State),
    trace (snd (generate_license_key env st)) = trace st /\
    (random_ok env ->
     exists key : string,
       generate_license_key env st
         = (Return key, mk_state (trace st) (drawn st + 12)%nat) /\
       String.length key = 18%nat).
Proof.
  intros env st. split; [apply generate_license_key_trace |].
  intros Hrand.
  destruct (generate_license_key_groups env st Hrand)
    as [g1 [g2 [g3 [Hgen [[L1 [L2 L3]] _]]]]].
  destruct g1 as [| a1 [| a2 [| a3 [| a4 [| ? ?]]]]]; try discriminate L1.
  destruct g2 as [| b1 [| b2 [| b3 [| b4 [| ? ?]]]]]; try discriminate L2.
  destruct g3 as [| c1 [| c2 [| c3 [| c4 [| ? ?]]]]]; try discriminate L3.
  eexists. split; [exact Hgen |].
  vm_compute. reflexivity.
Qed.

Lemma key_generator_effects_witness :
  exists key : string,
    generate_license_key
      (Sample.env Sample.service_key Sample.api_key Sample.created Sample.sent)
      initial = (Return key, mk_state [] 12) /\
    String.length key = 18%nat.
Proof.
  apply (key_generator_effects
           (Sample.env Sample.service_key Sample.api_key
              Sample.created Sample.sent) initial).
  intros i. unfold Sample.env, Sample.random53; cbn [random53].
  apply Z.mod_pos_bound. reflexivity.
Defined.

(** Draws that agree give the same characters, or the same exception. *)
Lemma choices_local (population : string) (k : nat) :
  forall (env1 env2 : Env) (st1 st2 : State),
    (forall i, (i < k)%nat ->
       random53 env1 (drawn st1 + i) = random53 env2 (drawn st2 + i)) ->
    match PyRandom.choices population k env1 st1,
          PyRandom.choices population k env2 st2 with
    | (Return a, s1), (Return b, s2) =>
      a = b /\ drawn s1 = (drawn st1 + k)%nat /\ drawn s2 = (drawn st2 + k)%nat
    | (Raise a, _), (Raise b, _) => a = b
    | _, _ => False
    end.
Proof.
  induction k as [| k IH]; intros env1 env2 st1 st2 Hsame.
  - cbn [PyRandom.choices]. unfold ret. repeat split; lia.
  - cbn [PyRandom.choices]. unfold PyRandom.random. run_monad.
    pose proof (Hsame 0%nat ltac:(lia)) as H0.
    rewrite !Nat.add_0_r in H0. rewrite H0.
    destruct (getitem population _) as [c | e]; [| reflexivity].
    specialize (IH env1 env2
                  (mk_state (trace st1) (S (drawn st1)))
                  (mk_state (trace st2) (S (drawn st2)))).
    cbn [drawn] in IH.
    assert (Hshift : forall i, (i < k)%nat ->
              random53 env1 (S (drawn st1) + i)
              = random53 env2 (S (drawn st2) + i)).
    { intros i Hi. specialize (Hsame (S i) ltac:(lia)).
      now rewrite !Nat.add_succ_r in Hsame. }
    specialize (IH Hshift).
    destruct (PyRandom.choices population k env1 _) as [[a | ea] s1];
      destruct (PyRandom.choices population k env2 _) as [[b | eb] s2];
      try contradiction; try assumption.
    destruct IH as [-> [D1 D2]]. repeat split; lia.
Qed.

(** X15.  A key is made from the twelve generator outputs it consumes
    and from nothing else: two calls of the key generator whose next
    twelve outputs agree end the same way, with the same key or the
    same exception, whatever the environments, clocks and traces are. *)
Theorem key_depends_only_on_its_draws :
  forall (env1 env2 : Env) (st1 st2 : State),
    (forall i, (i < 12)%nat ->
       random53 env1 (drawn st1 + i) = random53 env2 (drawn st2 + i)) ->
    fst (generate_license_key env1 st1) = fst (generate_license_key env2 st2).
Proof.
  intros env1 env2 st1 st2 Hsame.
  unfold generate_license_key. fold key_alphabet.
  cbn [for_range]. run_monad.
  pose proof (choices_local key_alphabet 4 env1 env2 st1 st2) as C1.
  destruct (PyRandom.choices key_alphabet 4 env1 st1) as [[a1 | e1] s1];
    destruct (PyRandom.choices key_alphabet 4 env2 st2) as [[b1 | f1] s2];
    specialize (C1 ltac:(intros i Hi; apply Hsame; lia));
    try contradiction; [| cbn [fst]; congruence].
  destruct C1 as [-> [D1 D2]].
  pose proof (choices_local key_alphabet 4 env1 env2 s1 s2) as C2.
  destruct (PyRandom.choices key_alphabet 4 env1 s1) as [[a2 | e2] s1'];
    destruct (PyRandom.choices key_alphabet 4 env2 s2) as [[b2 | f2] s2'];
    specialize (C2 ltac:(intros i Hi; rewrite D1, D2, <- !Nat.add_assoc;
                         apply Hsame; lia));
    try contradiction; [| cbn [fst]; congruence].
  destruct C2 as [-> [D1' D2']].
  pose proof (choices_local key_alphabet 4 env1 env2 s1' s2') as C3.
  destruct (PyRandom.choices key_alphabet 4 env1 s1') as [[a3 | e3] s1''];
    destruct (PyRandom.choices key_alphabet 4 env2 s2') as [[b3 | f3] s2''];
    specialize (C3 ltac:(intros i Hi; rewrite D1', D2', D1, D2,
                           <- !Nat.add_assoc;
                         apply Hsame; cbn; lia));
    try contradiction; [| cbn [fst]; congruence].
  destruct C3 as [-> _]. reflexivity.
Qed.

Lemma key_depends_only_on_its_draws_witness :
  fst (generate_license_key
         (Sample.env Sample.service_key Sample.api_key
            Sample.created Sample.sent) initial)
  = fst (generate_license_key
           (Sample.env None None Sample.conflict Sample.unreachable)
           (mk_state [Printed "earlier output"] 0)).
Proof.
  apply (key_depends_only_on_its_draws
           (Sample.env Sample.service_key Sample.api_key
              Sample.created Sample.sent)
           (Sample.env None None Sample.conflict Sample.unreachable)
           initial (mk_state [Printed "earlier output"] 0)).
  intros i Hi. reflexivity.
Defined.

(** ** The arguments of the command line *)

(** On ASCII text [int] raises nothing but [ValueError]. *)
Lemma int_ascii_raises_value_error (limit : Z) (s : string) (e : PyExc) :
  int_ascii limit s = Raise e -> exists msg, e = Exception "ValueError" msg.
Proof.
  unfold int_ascii.
  destruct (skip_spaces (list_ascii_of_string s)) as [| c cs].
  - unfold invalid_literal. intros H. injection H as <-.
    eexists. reflexivity.
  - assert (Hbody : forall negative body,
              match body with
              | c0 :: _ =>
                if Ascii.eqb c0 "_" then Raise (invalid_literal s)
                else
                  match scan_digits false 0 0 body with
                  | None => Raise (invalid_literal s)
                  | Some (n, count, rest) =>
                    if (640 <? count) && (0 <? limit) && (limit <? count)
                    then Raise (too_many_digits limit count)
                    else if count =? 0 then Raise (invalid_literal s)
                    else
                      match skip_spaces rest with
                      | [] => Return (if negative : bool then - n else n)
                      | _ :: _ => Raise (invalid_literal s)
                      end
                  end
              | [] => Raise (invalid_literal s)
              end = Raise e ->
              exists msg, e = Exception "ValueError" msg).
    { intros negative body.
      destruct body as [| c0 body']; unfold invalid_literal, too_many_digits.
      - intros H. injection H as <-. eexists. reflexivity.
      - destruct (Ascii.eqb c0 "_").
        + intros H. injection H as <-. eexists. reflexivity.
        + destruct (scan_digits false 0 0 (c0 :: body')) as [[[n count] rest] |].
          * destruct ((640 <? count) && (0 <? limit) && (limit <? count)).
            -- intros H. injection H as <-. eexists. reflexivity.
            -- destruct (count =? 0).
               ++ intros H. injection H as <-. eexists. reflexivity.
               ++ destruct (skip_spaces rest).
                  ** discriminate.
                  ** intros H. injection H as <-. eexists. reflexivity.
          * intros H. injection H as <-. eexists. reflexivity. }
    destruct (Ascii.eqb c "-"); [exact (Hbody true cs) |].
    destruct (Ascii.eqb c "+");
      [exact (Hbody false cs) | exact (Hbody false (c :: cs))].
Qed.

(** X16.  What the command line hands on, for every interpreter.
    Without a days argument the script is [create_license] with 365
    days; with one that [int] reads, it is [create_license] with that
    number, and arguments after it change nothing; with one that [int]
    refuses, the script ends in the exception [int] raised before
    anything is printed or sent, also when the store credential is
    missing, and for an ASCII argument that exception is a
    [ValueError] and the exit status 1. *)
Theorem command_line_arguments :
  forall (py : Interpreter) (env : Env) (prog email : string),
    run (main py [prog; email]) env = run (create_license email 365) env /\
    (forall (days_arg : string) (more : list string) (days : Z),
       py_int py days_arg = Return days ->
       run (main py (prog :: email :: days_arg :: more)) env
         = run (create_license email days) env) /\
    (forall (days_arg : string) (more : list string) (e : PyExc),
       py_int py days_arg = Raise e ->
       run (main py (prog :: email :: days_arg :: more)) env = (Raise e, []) /\
       (is_ascii days_arg = true ->
        (exists msg, e = Exception "ValueError" msg) /\
        exit_status
          (fst (run (main py (prog :: email :: days_arg :: more)) env)) = 1)).
Proof.
  intros py env prog email. split; [| split].
  - apply (main_runs_create_license py env [prog; email] 365).
    + cbn [List.length]. lia.
    + reflexivity.
  - intros days_arg more days Hint.
    apply (main_runs_create_license py env
             (prog :: email :: days_arg :: more) days).
    + cbn [List.length]. lia.
    + cbn [List.length nth]. exact Hint.
  - intros days_arg more e Hint.
    assert (Hrun :
      run (main py (prog :: email :: days_arg :: more)) env = (Raise e, [])).
    { unfold run, main. cbn [List.length Nat.ltb Nat.leb nth].
      unfold bind at 1. unfold lift at 1. rewrite Hint. reflexivity. }
    rewrite Hrun. split; [reflexivity |].
    intros Hascii. unfold py_int in Hint. rewrite Hascii in Hint.
    destruct (int_ascii_raises_value_error _ _ _ Hint) as [msg ->].
    split; [now exists msg | reflexivity].
Qed.

Lemma command_line_arguments_witness :
  run (main sample_interpreter
         ["generate_license.py"; Sample.email; "30"; "ignored"])
      (Sample.env Sample.service_key Sample.api_key Sample.created Sample.sent)
    = run (create_license Sample.email 30)
        (Sample.env Sample.service_key Sample.api_key
           Sample.created Sample.sent) /\
  run (main sample_interpreter
         ["generate_license.py"; Sample.email; "thirty"])
      (Sample.env None Sample.api_key Sample.created Sample.sent)
    = (Raise (Exception "ValueError"
                "invalid literal for int() with base 10: 'thirty'"), []).
Proof.
  split.
  - refine (proj1 (proj2 (command_line_arguments sample_interpreter
              (Sample.env Sample.service_key Sample.api_key
                 Sample.created Sample.sent)
              "generate_license.py" Sample.email))
              "30" ["ignored"] 30 _).
    vm_compute. reflexivity.
  - refine (proj1 (proj2 (proj2 (command_line_arguments sample_interpreter
              (Sample.env None Sample.api_key Sample.created Sample.sent)
              "generate_license.py" Sample.email))
              "thirty" [] _ _)).
    vm_compute. reflexivity.
Defined.

(** ** The request to the mail provider *)

(** X17.  The request [create_license] has [send_email] make carries
    the mail credential, set and not empty, as bearer token and not the
    store credential; it goes from the fixed sender to the email the
    license was created for, and its body holds the key that was sent
    to the store. *)
Theorem mail_request_shape :
  forall (env : Env) (email : string) (days_valid : Z) (m : Request),
    In (Posted m) (snd (run (create_license email days_valid) env)) ->
    url m = EMAIL_ENDPOINT ->
    exists (api_key key : string) (s : Request),
      RESEND_API_KEY env = Some api_key /\
      api_key <> "" /\
      headers m = [("Authorization", "Bearer " ++ api_key);
                   ("Content-Type", "application/json")] /\
      lookup "from" (json m) = Some FROM_EMAIL /\
      lookup "to" (json m) = Some email /\
      lookup "subject" (json m) = Some "Your Creenly License Key" /\
      lookup "html" (json m)
        = Some (html_before_key ++ key ++ html_after_key) /\
      In (Posted s) (snd (run (create_license email days_valid) env)) /\
      url s = STORE_ENDPOINT /\
      lookup "license_key" (json s) = Some key.
Proof.
  intros env email days m Hin Hurl.
  assert (Hkey : truthy (RESEND_API_KEY env) = true ->
                 exists api_key,
                   RESEND_API_KEY env = Some api_key /\ api_key <> "").
  { destruct (RESEND_API_KEY env) as [k |]; cbn [truthy];
      [| discriminate].
    intros Hk. exists k. split; [reflexivity |].
    intros ->. discriminate Hk. }
  issue_cases env email days; pick_request Hin; try wrong_endpoint;
    match goal with
    | H : truthy (RESEND_API_KEY env) = true |- _ =>
      destruct (Hkey H) as [k [Ek Hne]]
    end;
    exists k, key; eexists;
    rewrite Ek;
    (split; [reflexivity |]); (split; [assumption |]);
    (split; [reflexivity |]); (split; [reflexivity |]);
    (split; [reflexivity |]); (split; [reflexivity |]);
    (split; [unfold mail_request; cbn [json];
             rewrite html_body_around_key; reflexivity |]);
    (split; [right; left; reflexivity |]);
    split; reflexivity.
Qed.

Lemma mail_request_shape_witness :
  exists (api_key key : string) (s : Request),
    RESEND_API_KEY
      (Sample.env Sample.service_key Sample.api_key
         Sample.created Sample.refused) = Some api_key /\
    api_key <> "" /\
    headers Sample.mail_rq = [("Authorization", "Bearer " ++ api_key);
                              ("Content-Type", "application/json")] /\
    lookup "from" (json Sample.mail_rq) = Some FROM_EMAIL /\
    lookup "to" (json Sample.mail_rq) = Some Sample.email /\
    lookup "subject" (json Sample.mail_rq) = Some "Your Creenly License Key" /\
    lookup "html" (json Sample.mail_rq)
      = Some (html_before_key ++ key ++ html_after_key) /\
    In (Posted s)
       (snd (run (create_license Sample.email 30)
               (Sample.env Sample.service_key Sample.api_key
                  Sample.created Sample.refused))) /\
    url s = STORE_ENDPOINT /\
    lookup "license_key" (json s) = Some key.
Proof.
  apply (mail_request_shape
           (Sample.env Sample.service_key Sample.api_key
              Sample.created Sample.refused)
           Sample.email 30 Sample.mail_rq).
  - vm_compute. do 7 right. left. reflexivity.
  - reflexivity.
Defined.
